(** * The go-http-server of the homelab repository

    A development over [apps/go-http-server/src/main.go]: the in-memory
    user repository, the four request handlers, the content-type
    middleware, the route table and the start-up / shut-down sequence of
    [main].

    Conventions.
    - Go's [int] is the 64-bit two's-complement integer of the amd64 and
      arm64 targets; it is a [Z] kept in range by [GoInt.wrap].
    - A Go map is a reference: [map[int]User] values live in a heap of
      [gmap Z User] cells and the program passes their addresses around.
      The nil map is an address that is not allocated.
    - A [string] is a sequence of bytes.
    - The mutex of [Repo] is not modelled: every method body is one atomic
      step, which is what holding the lock gives to its callers. *)

From Stdlib Require Import ZArith Lia String Ascii List Sorted.
From stdpp Require Import base option gmap strings list pretty sorting.

Open Scope Z_scope.

(** ** Machine integers *)

Module GoInt.

Definition bits : Z := 64.
Definition modulus : Z := 2 ^ bits.
Definition max_int : Z := 2 ^ (bits - 1) - 1.
Definition min_int : Z := - 2 ^ (bits - 1).

(** Two's-complement reduction, as [+] and [++] on [int] perform it. *)
Definition wrap (z : Z) : Z := (z + 2 ^ (bits - 1)) mod modulus - 2 ^ (bits - 1).

Definition in_range (z : Z) : Prop := min_int <= z <= max_int.

End GoInt.

(** ** Data model *)

(** [type User struct { ID int; Name string }] *)
Record User := mkUser { ID : Z; Name : string }.

(** The zero value of [User], what [var user User] and a failed map read give. *)
Definition zeroUser : User := {| ID := 0; Name := EmptyString |}.

(** Addresses of map cells. *)
Definition loc := positive.

(** The heap of Go maps of type [map[int]User]. *)
Abbreviation Heap := (gmap loc (gmap Z User)).

(** [type Repo struct { mtx sync.RWMutex; users map[int]User; nextID int }].
    [users] holds the address of the map, as the Go field does. *)
Record Repo := mkRepo { users : loc; nextID : Z }.

(** Reading through a map reference; a nil map reads as the empty map. *)
Definition deref (h : Heap) (l : loc) : gmap Z User := default ∅ (h !! l).

(** ** Repository operations (main.go, lines 36-69)

    A method with receiver [r *Repo] takes the struct behind the pointer
    and the heap, and returns what it changes. *)

(** [make(map[int]User)] *)
Definition make_map (h : Heap) : loc * Heap :=
  let l := fresh (dom h) in (l, <[l := ∅]> h).

(** [func NewRepo() *Repo] *)
Definition NewRepo (h : Heap) : Repo * Heap :=
  let '(l, h') := make_map h in
  ({| users := l; nextID := 1 |}, h').

(** [func (r *Repo) Get() (map[int]User, error)]: the map reference itself
    is returned, together with a nil error ([None]). *)
Definition Get (r : Repo) (h : Heap) : loc * option string := (users r, None).

(** [func (r *Repo) Find(id int) (User, bool)] *)
Definition Find (r : Repo) (h : Heap) (id : Z) : User * bool :=
  match deref h (users r) !! id with
  | Some user => (user, true)
  | None => (zeroUser, false)
  end.

(** [func (r *Repo) Save(user User) User]. Assigning into a nil map
    panics: [None]. *)
Definition Save (r : Repo) (h : Heap) (user : User) : option (User * Repo * Heap) :=
  let user := {| ID := nextID r; Name := Name user |} in
  match h !! users r with
  | Some m =>
      Some (user,
            {| users := users r; nextID := GoInt.wrap (nextID r + 1) |},
            <[users r := <[ID user := user]> m]> h)
  | None => None
  end.

(** [func (r *Repo) Delete(id int)]. [delete] on a nil map does nothing. *)
Definition Delete (r : Repo) (h : Heap) (id : Z) : Heap :=
  match h !! users r with
  | Some m => <[users r := delete id m]> h
  | None => h
  end.

(** A run of [Save] calls, in order, collecting the returned users. *)
Fixpoint save_all (r : Repo) (h : Heap) (us : list User)
  : option (list User * Repo * Heap) :=
  match us with
  | [] => Some ([], r, h)
  | u :: us' =>
      match Save r h u with
      | Some (u', r', h') =>
          match save_all r' h' us' with
          | Some (rest, r'', h'') => Some (u' :: rest, r'', h'')
          | None => None
          end
      | None => None
      end
  end.

(** The repository's map is allocated: true of every [Repo] that
    [NewRepo] makes, and kept by every method. *)
Definition repo_ok (r : Repo) (h : Heap) : Prop := is_Some (h !! users r).

(** The ids [k, k+1, ..., k+n-1]. *)
Fixpoint ids_from (k : Z) (n : nat) : list Z :=
  match n with
  | O => []
  | S n' => k :: ids_from (k + 1) n'
  end.

(** ** strconv.Atoi

    The standard library function the handlers parse ids with, written
    out after [strconv/atoi.go]: the fast path of [Atoi] for short
    strings, and [ParseInt] / [ParseUint] in base 10 for the others. *)

Module Strconv.

Inductive ErrKind := ErrSyntax | ErrRange.

(** [type NumError struct { Func string; Num string; Err error }] *)
Record NumError := mkNumError { Func : string; Num : string; Err : ErrKind }.

Definition ErrKind_Error (k : ErrKind) : string :=
  match k with
  | ErrSyntax => "invalid syntax"
  | ErrRange => "value out of range"
  end.

Definition byte (c : ascii) : Z := Z.of_nat (nat_of_ascii c).

Definition dquote : ascii := "034"%char.
Definition backslash : ascii := "092"%char.

Definition hexdigit (n : Z) : ascii :=
  match String.get (Z.to_nat n) "0123456789abcdef" with
  | Some c => c
  | None => "0"%char
  end.

(** One byte of [strconv.Quote]. Exact on ASCII. A byte above 127 is
    copied, as Go does for the printable runes of valid UTF-8; Go escapes
    the other bytes above 127, which the strings quoted below (decimal
    digits) do not contain. *)
Definition quote_byte (c : ascii) : string :=
  let n := byte c in
  if decide (c = dquote) then String backslash (String dquote EmptyString)
  else if decide (c = backslash) then String backslash (String backslash EmptyString)
  else if decide (n = 7) then String backslash "a"
  else if decide (n = 8) then String backslash "b"
  else if decide (n = 12) then String backslash "f"
  else if decide (n = 10) then String backslash "n"
  else if decide (n = 13) then String backslash "r"
  else if decide (n = 9) then String backslash "t"
  else if decide (n = 11) then String backslash "v"
  else if decide (n < 32 \/ n = 127) then
    String backslash (String "x" (String (hexdigit (n / 16)) (String (hexdigit (n mod 16)) EmptyString)))
  else String c EmptyString.

Fixpoint quote_bytes (s : string) : string :=
  match s with
  | EmptyString => EmptyString
  | String c s' => quote_byte c +:+ quote_bytes s'
  end.

Definition Quote (s : string) : string :=
  String dquote (quote_bytes s +:+ String dquote EmptyString).

(** [func (e *NumError) Error() string] *)
Definition NumError_Error (e : NumError) : string :=
  "strconv." +:+ Func e +:+ ": parsing " +:+ Quote (Num e) +:+ ": " +:+ ErrKind_Error (Err e).

Definition maxUint64 : Z := 2 ^ 64 - 1.

(** The digit loop of [ParseUint] with [base = 10], [bitSize = 64]:
    [n] is the value so far. The result is the value and the error
    kind, if any. *)
Fixpoint ParseUint_loop (s : string) (n : Z) : Z * option ErrKind :=
  match s with
  | EmptyString => (n, None)
  | String c s' =>
      if decide (48 <= byte c <= 57) then
        let d := byte c - 48 in
        if decide (n >= maxUint64 / 10 + 1) then (maxUint64, Some ErrRange)
        else
          let n1 := n * 10 + d in
          if decide (n1 > maxUint64) then (maxUint64, Some ErrRange)
          else ParseUint_loop s' n1
      else (0, Some ErrSyntax)
  end.

(** [ParseUint(s, 10, 64)] *)
Definition ParseUint (s : string) : Z * option ErrKind :=
  match s with
  | EmptyString => (0, Some ErrSyntax)
  | _ => ParseUint_loop s 0
  end.

(** [ParseInt(s, 10, 0)]: the value, or the kind of the error on [s]. *)
Definition ParseInt (s : string) : Z + ErrKind :=
  match s with
  | EmptyString => inr ErrSyntax
  | String c rest =>
      let neg := bool_decide (c = "-"%char) in
      let digits := if decide (c = "+"%char \/ c = "-"%char) then rest else s in
      let '(un, err) := ParseUint digits in
      match err with
      | Some ErrSyntax => inr ErrSyntax
      | _ =>
          let cutoff := 2 ^ 63 in
          if negb neg && bool_decide (un >= cutoff) then inr ErrRange
          else if neg && bool_decide (un > cutoff) then inr ErrRange
          else inl (if neg then - un else un)
      end
  end.

(** The digit loop of the fast path: [ch -= '0'; if ch > 9 ...] on bytes. *)
Fixpoint fast_loop (s : string) (n : Z) : option Z :=
  match s with
  | EmptyString => Some n
  | String c s' =>
      let ch := (byte c - 48) mod 256 in
      if decide (ch > 9) then None else fast_loop s' (n * 10 + ch)
  end.

(** [func Atoi(s string) (int, error)] with [intSize = 64]. *)
Definition Atoi (s : string) : Z + NumError :=
  let sLen := Z.of_nat (String.length s) in
  if decide (0 < sLen < 19) then
    match s with
    | EmptyString => inr (mkNumError "Atoi" s ErrSyntax)
    | String c rest =>
        let signed := bool_decide (c = "-"%char \/ c = "+"%char) in
        let digits := if signed then rest else s in
        if signed && bool_decide (String.length digits < 1)%nat
        then inr (mkNumError "Atoi" s ErrSyntax)
        else
          match fast_loop digits 0 with
          | None => inr (mkNumError "Atoi" s ErrSyntax)
          | Some n => inl (if decide (c = "-"%char) then - n else n)
          end
    end
  else
    match ParseInt s with
    | inl i64 => inl i64
    | inr k => inr (mkNumError "Atoi" s k)
    end.

(** The number a string of decimal digits denotes, after the digits
    already read as [n]. *)
Fixpoint decimal_from (s : string) (n : Z) : Z :=
  match s with
  | EmptyString => n
  | String c s' => decimal_from s' (n * 10 + (byte c - 48))
  end.

Definition decimal (s : string) : Z := decimal_from s 0.

End Strconv.


(** ** net/http: requests and response writers

    What the handlers read of a request and write of a response. A header
    map keeps, per canonical key, the value [Get] returns. [sent] is the
    header map as it stood when the status line was written: a header set
    later does not reach the client. *)

Record Request := mkRequest {
  Method : string;
  Path : string;
  Header : gmap string string;
  Body : string;
  Vars : gmap string string   (* mux.Vars(r) *)
}.

Record ResponseWriter := mkResponseWriter {
  header : gmap string string;
  status : option Z;            (* [None]: WriteHeader not called yet *)
  sent : gmap string string;
  body : string
}.

Definition newResponseWriter : ResponseWriter :=
  mkResponseWriter ∅ None ∅ EmptyString.

Definition StatusOK : Z := 200.
Definition StatusCreated : Z := 201.
Definition StatusNoContent : Z := 204.
Definition StatusMovedPermanently : Z := 301.
Definition StatusNotModified : Z := 304.
Definition StatusBadRequest : Z := 400.
Definition StatusNotFound : Z := 404.
Definition StatusMethodNotAllowed : Z := 405.
Definition StatusInternalServerError : Z := 500.

Definition newline : string := String "010"%char EmptyString.

(** [r.Header.Get(key)] *)
Definition Header_Get (r : Request) (key : string) : string :=
  default EmptyString (Header r !! key).

(** The request with header [key] set to [value]. *)
Definition with_header (r : Request) (key value : string) : Request :=
  mkRequest (Method r) (Path r) (<[key := value]> (Header r)) (Body r) (Vars r).

(** What the middleware prints for a request with the headers [hdr]. *)
Definition accept_warning (hdr : gmap string string) : list string :=
  if decide (default EmptyString (hdr !! "Accept") ≠ "application/json")
  then ["accept header is not application/json" +:+ newline]
  else [].

(** [mux.Vars(r)[key]] *)
Definition Vars_Get (r : Request) (key : string) : string :=
  default EmptyString (Vars r !! key).

(** [w.Header().Set(key, value)] *)
Definition Header_Set (key value : string) (w : ResponseWriter) : ResponseWriter :=
  mkResponseWriter (<[key := value]> (header w)) (status w) (sent w) (body w).

(** [w.WriteHeader(code)]: only the first call counts. *)
Definition WriteHeader (code : Z) (w : ResponseWriter) : ResponseWriter :=
  match status w with
  | Some _ => w
  | None => mkResponseWriter (header w) (Some code) (header w) (body w)
  end.

Definition bodyAllowedForStatus (code : Z) : bool :=
  if decide (100 <= code <= 199) then false
  else if decide (code = StatusNoContent) then false
  else if decide (code = StatusNotModified) then false
  else true.

(** [w.Write(bytes)]: writes the status line with 200 when none was
    written, then the bytes, unless the status forbids a body. *)
Definition Write (bytes : string) (w : ResponseWriter) : ResponseWriter :=
  let w := WriteHeader StatusOK w in
  if bodyAllowedForStatus (default StatusOK (status w))
  then mkResponseWriter (header w) (status w) (sent w) (body w +:+ bytes)
  else w.

(** [http.Error(w, error, code)] *)
Definition http_Error (w : ResponseWriter) (error : string) (code : Z) : ResponseWriter :=
  let w := Header_Set "Content-Type" "text/plain; charset=utf-8" w in
  let w := Header_Set "X-Content-Type-Options" "nosniff" w in
  let w := WriteHeader code w in
  Write (error +:+ newline) w.

(** [json.NewEncoder(w).Encode(v)], given the JSON text of [v]: the text
    and a newline are written to [w]. *)
Definition Encoder_Encode (w : ResponseWriter) (json : string) : ResponseWriter :=
  Write (json +:+ newline) w.

(** ** Collaborators

    [encoding/json] and the OpenTelemetry / Prometheus libraries are used
    through their interfaces; the development holds for every
    implementation of them. *)

(** [encoding/json] on the two types the handlers encode, and the
    decoding into a [User]: [Decode_User body u] is the value of [u] after
    [Decode(&u)] and the error it returns. *)
Class Json := {
  Marshal_User : User -> string;
  Marshal_Users : gmap Z User -> string;
  Decode_User : string -> User -> User * option string
}.

(** The metrics sink. [Meter_Int64Counter meter name] is
    [otel.Meter(meter).Int64Counter(name, ...)]: it returns an instrument
    and an error; as in the OpenTelemetry API and SDK, the instrument
    returned is usable whether or not the error is nil. [Counter_Add] is
    the instrument's [Add], which returns nothing. [promhttp_Handler] is
    the handler of [/metrics]. *)
Class Telemetry := {
  Sink : Type;
  Meter_Int64Counter : string -> string -> Sink -> Sink * option string;
  Counter_Add : string -> string -> Z -> Sink -> Sink;
  promhttp_Handler : ResponseWriter -> Request -> Sink -> ResponseWriter
}.

(** ** The server state and its monad *)

Section Server.

Context `{Telemetry} `{Json}.

(** Everything the handlers share: the global [repo] (the struct behind
    the pointer), the heap of maps, and the metrics sink. *)
Record World := mkWorld { repo : Repo; heap : Heap; sink : Sink }.

(** A handler run either ends, with what it printed on standard output,
    its result and the state it leaves, or panics. *)
Inductive Res (A : Type) : Type :=
| Done (out : list string) (a : A) (st : World)
| Panic (out : list string).
Global Arguments Done {A} out a st.
Global Arguments Panic {A} out.

Definition M (A : Type) : Type := World -> Res A.

Global Instance M_ret : MRet M := fun A a st => Done [] a st.

Global Instance M_bind : MBind M := fun A B f m st =>
  match m st with
  | Done out a st' =>
      match f a st' with
      | Done out' b st'' => Done (out ++ out') b st''
      | Panic out' => Panic (out ++ out')
      end
  | Panic out => Panic out
  end.

(** [fmt.Println(s)] *)
Definition Println (s : string) : M unit := fun st => Done [s +:+ newline] tt st.

(** [fmt.Printf(s)] with the format already applied. *)
Definition Printf (s : string) : M unit := fun st => Done [s] tt st.

(** The methods of the global [repo]. *)
Definition repo_Get : M (loc * option string) :=
  fun st => Done [] (Get (repo st) (heap st)) st.

Definition repo_Find (id : Z) : M (User * bool) :=
  fun st => Done [] (Find (repo st) (heap st) id) st.

Definition repo_Save (user : User) : M User :=
  fun st =>
    match Save (repo st) (heap st) user with
    | Some (user', r', h') => Done [] user' (mkWorld r' h' (sink st))
    | None => Panic []
    end.

Definition repo_Delete (id : Z) : M unit :=
  fun st => Done [] tt (mkWorld (repo st) (Delete (repo st) (heap st) id) (sink st)).

(** Reading a map through its reference, as the JSON encoder does when
    it is handed the map. A nil map, which no repository made by
    [NewRepo] holds, reads as the empty map here; [encoding/json] writes
    [null] for the one and [{}] for the other. *)
Definition load_map (l : loc) : M (gmap Z User) :=
  fun st => Done [] (deref (heap st) l) st.

Definition meter_Int64Counter (meter name : string) : M (option string) :=
  fun st =>
    let '(s, err) := Meter_Int64Counter meter name (sink st) in
    Done [] err (mkWorld (repo st) (heap st) s).

Definition counter_Add (meter name : string) (n : Z) : M unit :=
  fun st => Done [] tt (mkWorld (repo st) (heap st) (Counter_Add meter name n (sink st))).

Definition Handler : Type := ResponseWriter -> Request -> M ResponseWriter.

(** The user stored under [id], if any. *)
Definition stored (st : World) (id : Z) : option User :=
  deref (heap st) (users (repo st)) !! id.

(** A run with [pre] printed before it. *)
Definition printed_before {A : Type} (pre : list string) (res : Res A) : Res A :=
  match res with
  | Done out a st => Done (pre ++ out) a st
  | Panic out => Panic (pre ++ out)
  end.

(** The response of a run, when it ends. *)
Definition response_of (res : Res ResponseWriter) : option ResponseWriter :=
  match res with
  | Done _ w _ => Some w
  | Panic _ => None
  end.

Definition response_status (res : Res ResponseWriter) : option Z :=
  w ← response_of res; status w.

(** ** The handlers (main.go, lines 73-133) *)

Definition ListUserHandler : Handler := fun w r =>
  '(users, err) ← repo_Get;
  match err with
  | Some _ => mret (http_Error w "failed to get users" StatusInternalServerError)
  | None =>
      m ← load_map users;
      mret (Encoder_Encode w (Marshal_Users m))
  end.

Definition GetUserHandler : Handler := fun w r =>
  match Strconv.Atoi (Vars_Get r "id") with
  | inr err => mret (http_Error w (Strconv.NumError_Error err) StatusBadRequest)
  | inl id =>
      '(user, ok) ← repo_Find id;
      if negb ok then mret (http_Error w "User not found" StatusNotFound)
      else mret (Encoder_Encode w (Marshal_User user))
  end.

Definition CreateUserHandler : Handler := fun w r =>
  let '(user, err) := Decode_User (Body r) zeroUser in
  match err with
  | Some e => mret (http_Error w e StatusBadRequest)
  | None =>
      user ← repo_Save user;
      let w := Header_Set "Content-Type" "application/json" w in
      let w := WriteHeader StatusCreated w in
      err ← meter_Int64Counter "go-http-server-e" "registeredUsers.count";
      match err with
      | Some e => Printf ("error otel: " +:+ e)
      | None => mret tt
      end;;
      counter_Add "go-http-server-e" "registeredUsers.count" 1;;
      mret (Encoder_Encode w (Marshal_User user))
  end.

Definition DeleteUserHandler : Handler := fun w r =>
  match Strconv.Atoi (Vars_Get r "id") with
  | inr err => mret (http_Error w (Strconv.NumError_Error err) StatusBadRequest)
  | inl id =>
      repo_Delete id;;
      mret (WriteHeader StatusNoContent w)
  end.

(** ** The middleware (main.go, lines 135-146) *)

Definition ContentTypeMiddleware (next : Handler) : Handler := fun w r =>
  let accept := Header_Get r "Accept" in
  (if decide (accept ≠ "application/json")
   then Println "accept header is not application/json"
   else mret tt);;
  let w := Header_Set "Content-Type" "application/json" w in
  next w r.

End Server.

(** ** gorilla/mux: the route table of [main] (main.go, lines 168-174)

    The router is the library's; what follows writes out its matching for
    the five routes registered here: a path template compiles to a regular
    expression anchored at both ends, [Methods] adds a method matcher, the
    first route whose matchers all hold wins, the middleware wraps only a
    handler that matched. *)

Module Mux.

Definition is_digit (c : ascii) : bool :=
  bool_decide (48 <= Strconv.byte c <= 57).

Fixpoint all_digits (s : string) : bool :=
  match s with
  | EmptyString => true
  | String c s' => is_digit c && all_digits s'
  end.

(** What the pattern [[0-9]+] accepts. *)
Definition digits1 (s : string) : bool :=
  match s with
  | EmptyString => false
  | _ => all_digits s
  end.

Fixpoint strip_prefix (p s : string) : option string :=
  match p, s with
  | EmptyString, _ => Some s
  | String a p', String b s' => if decide (a = b) then strip_prefix p' s' else None
  | String _ _, EmptyString => None
  end.

Inductive Template :=
| Literal (p : string)     (* a path without variables: [^p$] *)
| UsersId.                 (* [/users/{id:[0-9]+}]: [^/users/(?P<v0>[0-9]+)$] *)

Definition match_template (t : Template) (path : string) : option (gmap string string) :=
  match t with
  | Literal p => if decide (path = p) then Some ∅ else None
  | UsersId =>
      match strip_prefix "/users/" path with
      | Some id => if digits1 id then Some {["id" := id]} else None
      | None => None
      end
  end.

Inductive Target := TMetrics | TList | TGet | TCreate | TDelete.

(** A route: its path template, its methods ([[]]: no method matcher)
    and its handler. *)
Record Route := mkRoute { template : Template; methods : list string; target : Target }.

Definition routes : list Route :=
  [ mkRoute (Literal "/metrics") [] TMetrics;
    mkRoute (Literal "/users") ["GET"] TList;
    mkRoute UsersId ["GET"] TGet;
    mkRoute (Literal "/users") ["POST"] TCreate;
    mkRoute UsersId ["DELETE"] TDelete ].

Inductive RouteMatch :=
| PathMismatch
| MethodMismatch
| RouteMatched (vars : gmap string string).

(** [Route.Match]: the path matcher comes first and ends the match when
    it fails; a failed method matcher is remembered. *)
Definition Route_Match (rt : Route) (r : Request) : RouteMatch :=
  match match_template (template rt) (Path r) with
  | None => PathMismatch
  | Some vars =>
      match methods rt with
      | [] => RouteMatched vars
      | ms => if bool_decide (Method r ∈ ms) then RouteMatched vars else MethodMismatch
      end
  end.

Inductive Outcome :=
| Found (t : Target) (vars : gmap string string)
| ErrMethodMismatch
| ErrNotFound.

(** [Router.Match] over the routes in registration order. *)
Fixpoint Router_Match (rts : list Route) (r : Request) (mismatch : bool) : Outcome :=
  match rts with
  | [] => if mismatch then ErrMethodMismatch else ErrNotFound
  | rt :: rest =>
      match Route_Match rt r with
      | RouteMatched vars => Found (target rt) vars
      | MethodMismatch => Router_Match rest r true
      | PathMismatch => Router_Match rest r mismatch
      end
  end.

(** The elements of a path between its slashes. *)
Fixpoint segments (s : string) : list string :=
  match s with
  | EmptyString => [EmptyString]
  | String c s' =>
      if decide (c = "/"%char) then EmptyString :: segments s'
      else match segments s' with
           | seg :: rest => String c seg :: rest
           | [] => [String c EmptyString]
           end
  end.

(** [path.Clean] on a rooted path, element by element: empty and [.]
    elements go, [..] removes the element before it. [stack] holds the
    elements kept so far, last first. *)
Fixpoint clean_segments (segs : list string) (stack : list string) : list string :=
  match segs with
  | [] => rev stack
  | seg :: segs' =>
      if decide (seg = EmptyString \/ seg = ".") then clean_segments segs' stack
      else if decide (seg = "..") then clean_segments segs' (tail stack)
      else clean_segments segs' (seg :: stack)
  end.

Fixpoint join_rooted (segs : list string) : string :=
  match segs with
  | [] => EmptyString
  | seg :: segs' => "/" +:+ seg +:+ join_rooted segs'
  end.

Definition path_Clean (p : string) : string :=
  match clean_segments (segments p) [] with
  | [] => "/"
  | segs => join_rooted segs
  end.

Fixpoint ends_with_slash (s : string) : bool :=
  match s with
  | EmptyString => false
  | String c EmptyString => bool_decide (c = "/"%char)
  | String _ s' => ends_with_slash s'
  end.

(** mux's [cleanPath]. *)
Definition cleanPath (p : string) : string :=
  match p with
  | EmptyString => "/"
  | String c _ =>
      let p := if decide (c = "/"%char) then p else "/" +:+ p in
      let np := path_Clean p in
      if ends_with_slash p && negb (bool_decide (np = "/")) then np +:+ "/" else np
  end.

End Mux.

Section Router.

Context `{Telemetry} `{Json}.

Definition with_vars (r : Request) (vars : gmap string string) : Request :=
  mkRequest (Method r) (Path r) (Header r) (Body r) vars.

Definition metricsHandler : Handler := fun w r st =>
  Done [] (promhttp_Handler w r (sink st)) st.

Definition handler_of (t : Mux.Target) : Handler :=
  match t with
  | Mux.TMetrics => metricsHandler
  | Mux.TList => ListUserHandler
  | Mux.TGet => GetUserHandler
  | Mux.TCreate => CreateUserHandler
  | Mux.TDelete => DeleteUserHandler
  end.

(** [Router.ServeHTTP] with [router.Use(ContentTypeMiddleware)]: a path
    not in canonical form is redirected; a match runs the handler inside
    the middleware; a method mismatch answers 405 and no match answers
    with [http.NotFoundHandler()]. A [Request] here has a path and no
    query: the [Location] of the redirect is the cleaned path, which is
    what mux writes when the path needs no escaping; nothing below rests
    on its value. *)
Definition Router_ServeHTTP : Handler := fun w r =>
  if decide (Mux.cleanPath (Path r) ≠ Path r) then
    mret (WriteHeader StatusMovedPermanently (Header_Set "Location" (Mux.cleanPath (Path r)) w))
  else
    match Mux.Router_Match Mux.routes r false with
    | Mux.Found t vars => ContentTypeMiddleware (handler_of t) w (with_vars r vars)
    | Mux.ErrMethodMismatch => mret (WriteHeader StatusMethodNotAllowed w)
    | Mux.ErrNotFound => mret (http_Error w "404 page not found" StatusNotFound)
    end.

(** One request served on a fresh response writer. *)
Definition serve (r : Request) : M ResponseWriter :=
  Router_ServeHTTP newResponseWriter r.

(** A request as it arrives: no route variables yet. *)
Definition request (method path : string) (hdr : gmap string string) (body : string) : Request :=
  mkRequest method path hdr body ∅.

(** The state at process start: [var repo = NewRepo()] on an empty heap. *)
Definition initial_world (s : Sink) : World :=
  let '(r, h) := NewRepo ∅ in mkWorld r h s.

(** Requests served one after the other; for each, the status and the
    body of the response ([None] when the handler panics, which ends the
    run). *)
Fixpoint serve_all (rs : list Request) (st : World) : list (option (Z * string)) :=
  match rs with
  | [] => []
  | r :: rs' =>
      match serve r st with
      | Done _ w st' => Some (default StatusOK (status w), body w) :: serve_all rs' st'
      | Panic _ => [None]
      end
  end.

End Router.

(** ** The start-up and shut-down sequence of [main] (main.go, lines 148-202)

    Two [http.Server] values exist in a run of [main]: [srv], built at
    line 176 and handed to [Shutdown] at line 201, and the one that
    [http.ListenAndServe] builds for itself at line 186, which is the one
    that listens. The process is followed through the events that move
    it; [net/http] is taken as documented: [Shutdown] closes the listeners
    of its receiver and returns once the receiver has no active
    connection, and the process ends when [main] returns. *)

Module Lifecycle.

(** [time.Second], a [time.Duration] in nanoseconds. *)
Definition Second : Z := 1000000000.

(** The fields of [http.Server] that matter here; a zero timeout
    means no timeout. *)
Record Server := mkServer { Addr : string; ReadTimeout : Z; WriteTimeout : Z }.

(** Lines 163-166: [os.Getenv("PORT")], [8080] when it is empty. *)
Definition port (env_PORT : string) : string :=
  if decide (env_PORT = EmptyString) then "8080" else env_PORT.

(** Line 176: [srv := &http.Server{Addr: ":8080", ReadTimeout: time.Second,
    WriteTimeout: 10 * time.Second, ...}] *)
Definition srv : Server := mkServer ":8080" Second (10 * Second).

(** [net/http]: [func ListenAndServe(addr string, handler Handler) error
    { server := &Server{Addr: addr, Handler: handler}; return server.ListenAndServe() }] *)
Definition http_ListenAndServe (addr : string) : Server := mkServer addr 0 0.

(** Line 186: [http.ListenAndServe(fmt.Sprintf(":%s", port), router)] *)
Definition listener (env_PORT : string) : Server :=
  http_ListenAndServe (":" +:+ port env_PORT).

(** A server at run time: whether its listener is open and how many
    requests it is serving. *)
Record ServerState := mkServerState { config : Server; listening : bool; active : nat }.

(** Where the main goroutine stands. *)
Inductive MainPc :=
| AtSelect      (* line 190: waiting for [srvErr] or [ctx.Done()] *)
| InShutdown    (* line 201: inside [srv.Shutdown] *)
| Returned.     (* [main] has returned: the process is over *)

Record Process := mkProcess {
  configured : ServerState;   (* [srv] *)
  serving : ServerState;      (* the server inside [http.ListenAndServe] *)
  pc : MainPc;
  delivered : nat             (* responses written back to clients *)
}.

Definition start (env_PORT : string) : Process :=
  mkProcess (mkServerState srv false 0)
            (mkServerState (listener env_PORT) false 0)
            AtSelect 0.

Inductive Event :=
| BindOk            (* the goroutine's listener is bound *)
| BindFail          (* [http.ListenAndServe] returns an error into [srvErr] *)
| Accept            (* a request arrives and is dispatched *)
| Complete          (* a handler returns and its response is delivered *)
| Interrupt         (* SIGINT: [ctx.Done()] fires, [stop()], [srv.Shutdown] is entered *)
| ShutdownReturns.  (* [srv.Shutdown] returns and [main] with it *)

Definition alive (p : Process) : bool :=
  match pc p with Returned => false | _ => true end.

(** [Server.Shutdown], first half: the receiver's listeners are closed. *)
Definition close_listeners (s : ServerState) : ServerState :=
  mkServerState (config s) false (active s).

(** [Server.Shutdown], second half: it returns when the receiver has no
    active connection. *)
Definition shutdown_done (s : ServerState) : bool := bool_decide (active s = 0%nat).

(** One event; [None] when the event cannot happen in the state. *)
Definition step (p : Process) (e : Event) : option Process :=
  if negb (alive p) then None else
  match e with
  | BindOk =>
      if listening (serving p) then None
      else Some (mkProcess (configured p)
                           (mkServerState (config (serving p)) true (active (serving p)))
                           (pc p) (delivered p))
  | BindFail =>
      match pc p with
      | AtSelect =>
          if listening (serving p) then None
          else Some (mkProcess (configured p) (serving p) Returned (delivered p))
      | _ => None
      end
  | Accept =>
      if listening (serving p)
      then Some (mkProcess (configured p)
                           (mkServerState (config (serving p)) true (S (active (serving p))))
                           (pc p) (delivered p))
      else None
  | Complete =>
      match active (serving p) with
      | O => None
      | S n => Some (mkProcess (configured p)
                               (mkServerState (config (serving p)) (listening (serving p)) n)
                               (pc p) (S (delivered p)))
      end
  | Interrupt =>
      match pc p with
      | AtSelect => Some (mkProcess (close_listeners (configured p)) (serving p)
                                    InShutdown (delivered p))
      | _ => None
      end
  | ShutdownReturns =>
      match pc p with
      | InShutdown =>
          if shutdown_done (configured p)
          then Some (mkProcess (configured p) (serving p) Returned (delivered p))
          else None
      | _ => None
      end
  end.

Fixpoint run (p : Process) (es : list Event) : option Process :=
  match es with
  | [] => Some p
  | e :: es' =>
      match step p e with
      | Some p' => run p' es'
      | None => None
      end
  end.

(** The states a run of [main] can be in. *)
Definition reachable (env_PORT : string) (p : Process) : Prop :=
  exists es, run (start env_PORT) es = Some p.

(** What no event changes: the two server values keep their
    configuration, and [srv] never listens and never serves. *)
Definition stable (env_PORT : string) (p : Process) : Prop :=
  config (configured p) = srv /\
  config (serving p) = listener env_PORT /\
  listening (configured p) = false /\
  active (configured p) = 0%nat.

End Lifecycle.

(** ** Collaborators for the examples

    A small implementation of each collaborator, to run the handlers on
    concrete requests. The JSON text of a user is written as Go writes it
    for names of letters, digits and spaces, and a map is written with
    its keys in the order of their decimal text, as [encoding/json] sorts
    them; the decoder understands the two shapes [{"name":"..."}] and
    [{"id":<digits>,"name":"..."}] and refuses everything else. *)

Module Fixture.

Definition q (s : string) : string := Strconv.Quote s.

Definition marshal_user (u : User) : string :=
  "{" +:+ q "id" +:+ ":" +:+ pretty (ID u) +:+ "," +:+ q "name" +:+ ":" +:+ q (Name u) +:+ "}".

Definition marshal_entry (e : Z * User) : string :=
  q (pretty e.1) +:+ ":" +:+ marshal_user e.2.

Fixpoint join_comma (l : list string) : string :=
  match l with
  | [] => EmptyString
  | [s] => s
  | s :: l' => s +:+ "," +:+ join_comma l'
  end.

(** The order of two entries of a map in its JSON text: by the text of
    their keys. *)
Definition key_le (e1 e2 : Z * User) : Prop := String.le (pretty e1.1) (pretty e2.1).

#[global] Instance key_le_dec : RelDecision key_le :=
  fun e1 e2 => decide (String.le (pretty e1.1) (pretty e2.1)).

Definition marshal_users (m : gmap Z User) : string :=
  "{" +:+ join_comma (marshal_entry <$> merge_sort key_le (map_to_list m)) +:+ "}".

Fixpoint plain (s : string) : bool :=
  match s with
  | EmptyString => true
  | String c s' =>
      negb (bool_decide (c = Strconv.dquote \/ c = Strconv.backslash)) && plain s'
  end.

Fixpoint strip_suffix_rev (suffix_rev s_rev : list ascii) : option (list ascii) :=
  match suffix_rev, s_rev with
  | [], _ => Some s_rev
  | a :: x, b :: y => if decide (a = b) then strip_suffix_rev x y else None
  | _ :: _, [] => None
  end.

(** The end of a body, from the first character of the name on: the
    name, the quote that closes it and the closing brace. *)
Definition decode_name (rest : string) (id : Z) (u : User) : User * option string :=
  match strip_suffix_rev (rev (list_ascii_of_string (String Strconv.dquote "}")))
                         (rev (list_ascii_of_string rest)) with
  | Some name_rev =>
      let name := string_of_list_ascii (rev name_rev) in
      if plain name then (mkUser id name, None)
      else (u, Some "invalid character in string literal")
  | None => (u, Some "unexpected end of JSON input")
  end.

(** The digits a string starts with, and what follows them. *)
Fixpoint span_digits (s : string) : string * string :=
  match s with
  | EmptyString => (EmptyString, EmptyString)
  | String c s' =>
      if Mux.is_digit c
      then let '(ds, rest) := span_digits s' in (String c ds, rest)
      else (EmptyString, s)
  end.

Definition decode_user (body : string) (u : User) : User * option string :=
  match Mux.strip_prefix ("{" +:+ q "name" +:+ ":" +:+ String Strconv.dquote EmptyString) body with
  | Some rest => decode_name rest (ID u) u
  | None =>
      match Mux.strip_prefix ("{" +:+ q "id" +:+ ":") body with
      | Some rest =>
          let '(ds, rest') := span_digits rest in
          match Strconv.Atoi ds with
          | inl id =>
              match Mux.strip_prefix ("," +:+ q "name" +:+ ":" +:+ String Strconv.dquote EmptyString)
                                     rest' with
              | Some rest'' => decode_name rest'' id u
              | None => (u, Some "invalid character after object key:value pair")
              end
          | inr _ => (u, Some "cannot unmarshal number into Go struct field User.id of type int")
          end
      | None => (u, Some "invalid character looking for beginning of value")
      end
  end.

Definition json : Json :=
  {| Marshal_User := marshal_user;
     Marshal_Users := marshal_users;
     Decode_User := decode_user |}.

(** A sink that counts what is added to it. *)
Definition counting : Telemetry :=
  {| Sink := Z;
     Meter_Int64Counter := fun _ _ s => (s, None);
     Counter_Add := fun _ _ n s => s + n;
     promhttp_Handler := fun w _ s => Write ("registeredUsers_count " +:+ pretty s +:+ newline) w |}.

(** A sink in bad health: creating the counter reports an error and
    nothing added is kept. *)
Definition broken : Telemetry :=
  {| Sink := unit;
     Meter_Int64Counter := fun _ _ s => (s, Some "instrument rejected");
     Counter_Add := fun _ _ _ s => s;
     promhttp_Handler := fun w _ _ => WriteHeader StatusInternalServerError w |}.

(** The body [{"name":"<name>"}]. *)
Definition name_body (name : string) : string :=
  "{" +:+ q "name" +:+ ":" +:+ q name +:+ "}".

(** The body [{"id":<id>,"name":"<name>"}]. *)
Definition id_name_body (id : Z) (name : string) : string :=
  "{" +:+ q "id" +:+ ":" +:+ pretty id +:+ "," +:+ q "name" +:+ ":" +:+ q name +:+ "}".

(** The two formats of the Prometheus exposition that matter here. *)
Definition protobuf_type : string :=
  "application/vnd.google.protobuf; proto=io.prometheus.client.MetricFamily; encoding=delimited".
Definition text_type : string := "text/plain; version=0.0.4; charset=utf-8".

(** A sink whose [/metrics] handler chooses its format by the [Accept]
    header of the request, as the handler of [promhttp.Handler()] does:
    the protobuf format when the request asks for it, the text format
    otherwise; the handler sets [Content-Type] to the format chosen. *)
Definition negotiating : Telemetry :=
  {| Sink := Z;
     Meter_Int64Counter := fun _ _ s => (s, None);
     Counter_Add := fun _ _ n s => s + n;
     promhttp_Handler := fun w r s =>
       let format := if decide (Header_Get r "Accept" = protobuf_type)
                     then protobuf_type else text_type in
       Write ("registeredUsers_count " +:+ pretty s +:+ newline)
             (Header_Set "Content-Type" format w) |}.

End Fixture.

(** ** Runs of repository calls

    The four methods of [Repo], called in any order on one repository. *)

Inductive Call :=
| CallGet
| CallFind (id : Z)
| CallSave (user : User)
| CallDelete (id : Z).

(** A run of calls, collecting the users that the [Save] calls return.
    [Get] and [Find] leave the repository as it is. *)
Fixpoint run_calls (r : Repo) (h : Heap) (cs : list Call)
  : option (list User * Repo * Heap) :=
  match cs with
  | [] => Some ([], r, h)
  | CallGet :: cs' => run_calls r h cs'
  | CallFind _ :: cs' => run_calls r h cs'
  | CallDelete id :: cs' => run_calls r (Delete r h id) cs'
  | CallSave u :: cs' =>
      match Save r h u with
      | Some (u', r', h') =>
          match run_calls r' h' cs' with
          | Some (rest, r'', h'') => Some (u' :: rest, r'', h'')
          | None => None
          end
      | None => None
      end
  end.

(** How many of the calls are [Save] calls. *)
Fixpoint saves (cs : list Call) : nat :=
  match cs with
  | [] => O
  | CallSave _ :: cs' => S (saves cs')
  | _ :: cs' => saves cs'
  end.

(** The map after the users of [res] were stored in it, each under its id,
    in order. *)
Definition stored_all (m : gmap Z User) (res : list User) : gmap Z User :=
  foldl (fun m u => <[ID u := u]> m) m res.

(** * Properties *)

(** ** Machine integers *)

Lemma wrap_in_range (z : Z) : GoInt.in_range z -> GoInt.wrap z = z.
Proof.
  unfold GoInt.in_range, GoInt.wrap, GoInt.min_int, GoInt.max_int, GoInt.modulus, GoInt.bits.
  intros Hz. rewrite Z.mod_small; lia.
Qed.

Lemma wrap_past_max : GoInt.wrap (GoInt.max_int + 1) = GoInt.min_int.
Proof. reflexivity. Qed.

(** ** The repository *)

Lemma NewRepo_ok (h : Heap) : repo_ok (NewRepo h).1 (NewRepo h).2.
Proof.
  unfold repo_ok, NewRepo, make_map; simpl.
  rewrite lookup_insert_eq. by eexists.
Qed.

Lemma NewRepo_nextID (h : Heap) : nextID (NewRepo h).1 = 1.
Proof. reflexivity. Qed.

Lemma NewRepo_empty (h : Heap) : deref (NewRepo h).2 (users (NewRepo h).1) = ∅.
Proof.
  unfold deref, NewRepo, make_map; simpl. by rewrite lookup_insert_eq.
Qed.

(** The map of a new repository is a cell no one else holds. *)
Lemma NewRepo_fresh (h : Heap) : h !! users (NewRepo h).1 = None.
Proof.
  unfold NewRepo, make_map; simpl.
  apply not_elem_of_dom. apply is_fresh.
Qed.

(** [Save] on an allocated map runs to the end, and does what its four
    lines say. *)
Lemma Save_ok (r : Repo) (h : Heap) (u : User) :
  repo_ok r h ->
  exists h',
    Save r h u = Some (mkUser (nextID r) (Name u),
                       mkRepo (users r) (GoInt.wrap (nextID r + 1)), h') /\
    deref h' (users r) = <[nextID r := mkUser (nextID r) (Name u)]> (deref h (users r)) /\
    repo_ok (mkRepo (users r) (GoInt.wrap (nextID r + 1))) h'.
Proof.
  intros [m Hm]. unfold Save, deref, repo_ok. rewrite Hm. simpl.
  eexists. split; [reflexivity|].
  rewrite lookup_insert_eq. split; [reflexivity | by eexists].
Qed.

Lemma Save_nil_map_panics (r : Repo) (h : Heap) (u : User) :
  h !! users r = None -> Save r h u = None.
Proof. intros Hn. unfold Save. by rewrite Hn. Qed.

(** The id of the argument plays no part. *)
Lemma Save_ignores_id (r : Repo) (h : Heap) (u : User) (i : Z) :
  Save r h (mkUser i (Name u)) = Save r h u.
Proof. reflexivity. Qed.

Lemma Save_same_name (r : Repo) (h : Heap) (u v : User) :
  Name u = Name v -> Save r h u = Save r h v.
Proof. intros Hn. unfold Save. by rewrite Hn. Qed.

Lemma Delete_ok (r : Repo) (h : Heap) (id : Z) :
  repo_ok r h -> repo_ok r (Delete r h id).
Proof.
  intros [m Hm]. unfold repo_ok, Delete. rewrite Hm.
  rewrite lookup_insert_eq. by eexists.
Qed.

Lemma deref_Delete (r : Repo) (h : Heap) (id : Z) :
  deref (Delete r h id) (users r) = delete id (deref h (users r)).
Proof.
  unfold deref, Delete. destruct (h !! users r) as [m|] eqn:Hm; simpl.
  - by rewrite lookup_insert_eq.
  - rewrite Hm. simpl. by rewrite delete_empty.
Qed.

Lemma Delete_absent (r : Repo) (h : Heap) (id : Z) :
  deref h (users r) !! id = None -> Delete r h id = h.
Proof.
  unfold deref, Delete. destruct (h !! users r) as [m|] eqn:Hm; simpl; [|done].
  intros Hid. rewrite delete_id by done. by apply insert_id.
Qed.

Lemma Find_spec (r : Repo) (h : Heap) (id : Z) :
  Find r h id = match deref h (users r) !! id with
                | Some u => (u, true)
                | None => (zeroUser, false)
                end.
Proof. reflexivity. Qed.

Lemma Find_false (r : Repo) (h : Heap) (id : Z) :
  (Find r h id).2 = false <-> deref h (users r) !! id = None.
Proof.
  unfold Find. destruct (deref h (users r) !! id); simpl; split; congruence.
Qed.

(** *** Sequences of ids *)

Lemma ids_from_length (k : Z) (n : nat) : length (ids_from k n) = n.
Proof. revert k. induction n as [|n IH]; intros k; simpl; [done | by rewrite IH]. Qed.

Lemma ids_from_lookup (k : Z) (n i : nat) :
  (i < n)%nat -> ids_from k n !! i = Some (k + Z.of_nat i).
Proof.
  revert k i. induction n as [|n IH]; intros k i Hi; [lia|].
  destruct i as [|i]; simpl.
  - f_equal. lia.
  - rewrite IH by lia. f_equal. lia.
Qed.

Lemma ids_from_ge (k : Z) (n : nat) (x : Z) : x ∈ ids_from k n -> k <= x.
Proof.
  revert k. induction n as [|n IH]; intros k; simpl.
  - by intros ?%elem_of_nil.
  - intros [->|Hx]%elem_of_cons; [lia|]. apply IH in Hx. lia.
Qed.

Lemma ids_from_sorted (k : Z) (n : nat) : StronglySorted Z.lt (ids_from k n).
Proof.
  revert k. induction n as [|n IH]; intros k; simpl; constructor; [apply IH|].
  apply Forall_forall. intros x Hx%ids_from_ge. lia.
Qed.

Lemma ids_from_NoDup (k : Z) (n : nat) : NoDup (ids_from k n).
Proof.
  revert k. induction n as [|n IH]; intros k; simpl; constructor; [|apply IH].
  intros Hx%ids_from_ge. lia.
Qed.

(** A run of saves from a counter [k] that has room for them returns the
    ids [k, k+1, ...]. *)
Lemma save_all_ids (us : list User) (r : Repo) (h : Heap) :
  repo_ok r h ->
  GoInt.min_int <= nextID r ->
  nextID r + Z.of_nat (length us) - 1 <= GoInt.max_int ->
  exists res r' h',
    save_all r h us = Some (res, r', h') /\
    ID <$> res = ids_from (nextID r) (length us) /\
    Name <$> res = Name <$> us /\
    repo_ok r' h'.
Proof.
  revert r h. induction us as [|u us IH]; intros r h Hok Hlo Hhi.
  - exists [], r, h. by repeat split.
  - destruct (Save_ok r h u Hok) as (h1 & HS & _ & Hok1).
    simpl. rewrite HS.
    destruct us as [|v us].
    + simpl. do 3 eexists. by repeat split.
    + assert (Hw : GoInt.wrap (nextID r + 1) = nextID r + 1).
      { apply wrap_in_range. unfold GoInt.in_range.
        simpl length in Hhi. lia. }
      destruct (IH _ _ Hok1) as (res & r' & h' & Hrun & Hids & Hnames & Hok').
      { simpl. rewrite Hw. lia. }
      { simpl nextID. rewrite Hw. simpl length in *. lia. }
      rewrite Hrun. do 3 eexists. split; [reflexivity|].
      cbn [fmap list_fmap] in *. simpl nextID in Hids. rewrite Hw in Hids.
      change (length (u :: v :: us)) with (S (length (v :: us))).
      cbn [ids_from ID Name]. rewrite Hids, Hnames. by repeat split.
Qed.

Lemma save_all_names_only (us vs : list User) (r : Repo) (h : Heap) :
  Name <$> us = Name <$> vs -> save_all r h us = save_all r h vs.
Proof.
  revert vs r h. induction us as [|u us IH]; intros [|v vs] r h Hn; try done.
  injection Hn as Hu Hrest. simpl.
  rewrite (Save_same_name r h u v Hu).
  destruct (Save r h v) as [[[u' r'] h']|]; [|done].
  by rewrite (IH vs r' h' Hrest).
Qed.

(** C1. On a repository fresh from [NewRepo], a run of [save] calls (as
    many as the [int] counter can number) returns the ids 1, 2, 3, ... in
    call order, strictly increasing and without repetition; the ids the
    caller put in the arguments are ignored: only the names of the
    arguments decide what the run returns. *)
Theorem save_ids_count_from_one (h0 : Heap) (us : list User) :
  Z.of_nat (length us) <= GoInt.max_int ->
  exists res r' h',
    save_all (NewRepo h0).1 (NewRepo h0).2 us = Some (res, r', h') /\
    ID <$> res = ids_from 1 (length us) /\
    (forall i : nat, (i < length us)%nat -> ID <$> res !! i = Some (Z.of_nat i + 1)) /\
    StronglySorted Z.lt (ID <$> res) /\
    NoDup (ID <$> res) /\
    (forall vs : list User, Name <$> vs = Name <$> us ->
       save_all (NewRepo h0).1 (NewRepo h0).2 vs = Some (res, r', h')).
Proof.
  intros Hlen.
  destruct (save_all_ids us (NewRepo h0).1 (NewRepo h0).2) as (res & r' & h' & Hrun & Hids & _ & _).
  - apply NewRepo_ok.
  - rewrite NewRepo_nextID. unfold GoInt.min_int, GoInt.bits. lia.
  - rewrite NewRepo_nextID. lia.
  - rewrite NewRepo_nextID in Hids.
    exists res, r', h'. split; [done|]. split; [done|].
    split; [|split; [|split]].
    + intros i Hi. rewrite <- list_lookup_fmap, Hids, ids_from_lookup by done.
      f_equal. lia.
    + rewrite Hids. apply ids_from_sorted.
    + rewrite Hids. apply ids_from_NoDup.
    + intros vs Hvs. by rewrite (save_all_names_only vs us).
Qed.

Lemma save_ids_count_from_one_witness :
  exists res r' h',
    save_all (NewRepo ∅).1 (NewRepo ∅).2 [mkUser 999 "a"; mkUser 999 "b"] = Some (res, r', h') /\
    ID <$> res = [1; 2].
Proof.
  destruct (save_ids_count_from_one ∅ [mkUser 999 "a"; mkUser 999 "b"])
    as (res & r' & h' & Hrun & Hids & _).
  - vm_compute. discriminate.
  - exists res, r', h'. split; [exact Hrun | exact Hids].
Defined.

(** The example of the specification: two saves with the caller's id 999. *)
Example save_999_twice :
  (fun o => match o with Some (res, _, _) => Some res | None => None end)
    (save_all (NewRepo ∅).1 (NewRepo ∅).2 [mkUser 999 "a"; mkUser 999 "b"])
  = Some [mkUser 1 "a"; mkUser 2 "b"].
Proof. reflexivity. Qed.

(** *** [Get]: the error and the reference *)

Lemma Get_error_nil (r : Repo) (h : Heap) : (Get r h).2 = None.
Proof. reflexivity. Qed.

Lemma Get_current (r : Repo) (h : Heap) :
  deref h (Get r h).1 = deref h (users r).
Proof. reflexivity. Qed.

(** What [Get] returned shows every later [Save]. *)
Lemma Get_sees_later_Save (r : Repo) (h : Heap) (u u' : User) (r' : Repo) (h' : Heap) :
  Save r h u = Some (u', r', h') ->
  deref h' (Get r h).1 = <[nextID r := u']> (deref h (Get r h).1).
Proof.
  unfold Save, Get, deref. simpl.
  destruct (h !! users r) as [m|] eqn:Hm; [|done].
  intros [= <- <- <-]. simpl. by rewrite lookup_insert_eq.
Qed.

(** What [Get] returned shows every later [Delete]. *)
Lemma Get_sees_later_Delete (r : Repo) (h : Heap) (id : Z) :
  deref (Delete r h id) (Get r h).1 = delete id (deref h (Get r h).1).
Proof. apply deref_Delete. Qed.

(** C3. [Get] never fails, and what it returns is the repository's own
    map, not a copy: on a new repository the value returned by [Get] is
    empty when it is returned and holds user 1 after a later [Save]. *)
Theorem Get_returns_the_live_map :
  let r0 := (NewRepo ∅).1 in
  let h0 := (NewRepo ∅).2 in
  let view := (Get r0 h0).1 in
  (Get r0 h0).2 = None /\
  deref h0 view = ∅ /\
  exists r1 h1,
    Save r0 h0 (mkUser 0 "Ada") = Some (mkUser 1 "Ada", r1, h1) /\
    deref h1 view = {[ 1 := mkUser 1 "Ada" ]} /\
    deref h1 view <> deref h0 view.
Proof.
  intros r0 h0 view.
  destruct (Save_ok r0 h0 (mkUser 0 "Ada") (NewRepo_ok ∅)) as (h1 & HS & Hmap & _).
  assert (Hafter : deref h1 view = {[ 1 := mkUser 1 "Ada" ]}).
  { change (deref h1 view) with (deref h1 (users r0)). rewrite Hmap. unfold r0, h0.
    rewrite NewRepo_empty, NewRepo_nextID. apply insert_empty. }
  assert (Hbefore : deref h0 view = ∅) by apply NewRepo_empty.
  split; [reflexivity|]. split; [exact Hbefore|].
  exists (mkRepo (users r0) (GoInt.wrap (nextID r0 + 1))), h1.
  split; [exact HS|]. split; [exact Hafter|].
  rewrite Hafter, Hbefore. intros Heq.
  assert (Hl : ({[ 1 := mkUser 1 "Ada" ]} : gmap Z User) !! 1 = (∅ : gmap Z User) !! 1)
    by (by rewrite Heq).
  rewrite lookup_singleton_eq, lookup_empty in Hl. discriminate.
Qed.

(** *** [Delete] and [Find] *)

(** C7. After [Delete r id], [Find r id] reports absence; and when [id]
    is absent, [Delete r id] leaves the heap as it was, so [Get] returns
    the same reference to the same map. *)
Theorem delete_then_find (r : Repo) (h : Heap) (id : Z) :
  Find r (Delete r h id) id = (zeroUser, false) /\
  ((Find r h id).2 = false ->
     Delete r h id = h /\
     Get r (Delete r h id) = Get r h /\
     deref (Delete r h id) (Get r (Delete r h id)).1 = deref h (Get r h).1).
Proof.
  split.
  - rewrite Find_spec, deref_Delete, lookup_delete_eq. reflexivity.
  - intros Habs%Find_false.
    rewrite (Delete_absent r h id Habs). by repeat split.
Qed.

Lemma delete_then_find_witness :
  let r := (NewRepo ∅).1 in
  let h := (NewRepo ∅).2 in
  Find r (Delete r h 5) 5 = (zeroUser, false) /\ Delete r h 5 = h.
Proof.
  intros r h. destruct (delete_then_find r h 5) as [Hfind Habs].
  split; [exact Hfind|]. apply Habs. reflexivity.
Defined.

(** Deleting a stored user removes that user and no other. *)
Lemma Delete_other (r : Repo) (h : Heap) (id id' : Z) :
  id <> id' -> Find r (Delete r h id) id' = Find r h id'.
Proof.
  intros Hne. rewrite !Find_spec, deref_Delete, lookup_delete_ne by done. reflexivity.
Qed.

(** *** [Save] then [Find] *)

(** C10. On a repository whose map is allocated, [Save r u] returns a
    user [u'] that carries the counter as id and the name of [u], and
    [Find] on the state it leaves returns [u'] itself for that id. *)
Theorem save_then_find (r : Repo) (h : Heap) (u : User) :
  repo_ok r h ->
  exists u' r' h',
    Save r h u = Some (u', r', h') /\
    Find r' h' (ID u') = (u', true) /\
    Name u' = Name u /\
    ID u' = nextID r.
Proof.
  intros Hok. destruct (Save_ok r h u Hok) as (h' & HS & Hmap & _).
  do 3 eexists. split; [exact HS|].
  split; [|split; reflexivity].
  rewrite Find_spec. simpl. rewrite Hmap, lookup_insert_eq. reflexivity.
Qed.

Lemma save_then_find_witness :
  exists u' r' h',
    Save (NewRepo ∅).1 (NewRepo ∅).2 (mkUser 999 "Ada") = Some (u', r', h') /\
    Find r' h' (ID u') = (u', true) /\ Name u' = "Ada" /\ ID u' = 1.
Proof.
  destruct (save_then_find (NewRepo ∅).1 (NewRepo ∅).2 (mkUser 999 "Ada"))
    as (u' & r' & h' & HS & HF & HN & HI).
  - apply NewRepo_ok.
  - exists u', r', h'. repeat split; assumption.
Defined.

(** Whatever [Save] returns is found again, also stated on its result. *)
Lemma Save_Find (r : Repo) (h : Heap) (u u' : User) (r' : Repo) (h' : Heap) :
  Save r h u = Some (u', r', h') ->
  Find r' h' (ID u') = (u', true) /\ Name u' = Name u.
Proof.
  unfold Save. destruct (h !! users r) as [m|] eqn:Hm; [|done].
  intros [= <- <- <-]. split; [|reflexivity].
  rewrite Find_spec. unfold deref. simpl.
  by rewrite lookup_insert_eq; simpl; rewrite lookup_insert_eq.
Qed.

(** ** strconv.Atoi on strings of digits *)

Lemma byte_range (c : ascii) : 0 <= Strconv.byte c < 256.
Proof.
  unfold Strconv.byte. pose proof (nat_ascii_bounded c). lia.
Qed.

Lemma is_digit_spec (c : ascii) :
  Mux.is_digit c = true <-> 48 <= Strconv.byte c <= 57.
Proof. unfold Mux.is_digit. by rewrite bool_decide_eq_true. Qed.

Lemma all_digits_cons (c : ascii) (s : string) :
  Mux.all_digits (String c s) = true <->
  48 <= Strconv.byte c <= 57 /\ Mux.all_digits s = true.
Proof. simpl. rewrite andb_true_iff, is_digit_spec. tauto. Qed.

Lemma decimal_from_ge (s : string) (n : Z) :
  Mux.all_digits s = true -> 0 <= n -> n <= Strconv.decimal_from s n.
Proof.
  revert n. induction s as [|c s IH]; intros n Hd Hn; simpl; [lia|].
  apply all_digits_cons in Hd as [Hc Hs].
  specialize (IH (n * 10 + (Strconv.byte c - 48)) Hs). lia.
Qed.

Lemma decimal_from_lt (s : string) (n : Z) :
  Mux.all_digits s = true -> 0 <= n ->
  Strconv.decimal_from s n < (n + 1) * 10 ^ Z.of_nat (String.length s).
Proof.
  revert n. induction s as [|c s IH]; intros n Hd Hn.
  - simpl. lia.
  - apply all_digits_cons in Hd as [Hc Hs].
    cbn [Strconv.decimal_from String.length].
    specialize (IH (n * 10 + (Strconv.byte c - 48)) Hs).
    rewrite Nat2Z.inj_succ, Z.pow_succ_r by lia.
    assert (0 < 10 ^ Z.of_nat (String.length s)) by (apply Z.pow_pos_nonneg; lia).
    nia.
Qed.

Lemma fast_loop_digits (s : string) (n : Z) :
  Mux.all_digits s = true ->
  Strconv.fast_loop s n = Some (Strconv.decimal_from s n).
Proof.
  revert n. induction s as [|c s IH]; intros n Hd; simpl; [done|].
  apply all_digits_cons in Hd as [Hc Hs].
  rewrite Z.mod_small by lia.
  destruct (decide (Strconv.byte c - 48 > 9)); [lia|]. by apply IH.
Qed.

Lemma maxUint64_value : Strconv.maxUint64 = 18446744073709551615.
Proof. reflexivity. Qed.

Lemma max_int_value : GoInt.max_int = 9223372036854775807.
Proof. reflexivity. Qed.

Lemma ParseUint_loop_digits (s : string) (n : Z) :
  Mux.all_digits s = true -> 0 <= n <= Strconv.maxUint64 ->
  Strconv.ParseUint_loop s n =
    if decide (Strconv.decimal_from s n <= Strconv.maxUint64)
    then (Strconv.decimal_from s n, None)
    else (Strconv.maxUint64, Some Strconv.ErrRange).
Proof.
  revert n. induction s as [|c s IH]; intros n Hd Hn.
  - simpl. destruct (decide (n <= Strconv.maxUint64)); [done | lia].
  - apply all_digits_cons in Hd as [Hc Hs].
    cbn [Strconv.ParseUint_loop Strconv.decimal_from].
    destruct (decide (48 <= Strconv.byte c <= 57)) as [_|]; [|lia].
    pose proof (decimal_from_ge s (n * 10 + (Strconv.byte c - 48)) Hs) as Hge.
    rewrite maxUint64_value in *.
    change (18446744073709551615 / 10 + 1) with 1844674407370955162.
    destruct (decide (n >= 1844674407370955162)).
    { destruct (decide (_ <= _)); [lia | done]. }
    cbv zeta.
    destruct (decide (n * 10 + (Strconv.byte c - 48) > 18446744073709551615)).
    { destruct (decide (_ <= _)); [lia | done]. }
    rewrite IH by first [done | lia]. reflexivity.
Qed.

(** On one or more decimal digits, [Atoi] returns the number they denote
    when it fits an [int], and a range error otherwise. *)
Lemma Atoi_digits (s : string) :
  Mux.digits1 s = true ->
  Strconv.Atoi s =
    if decide (Strconv.decimal s <= GoInt.max_int)
    then inl (Strconv.decimal s)
    else inr (Strconv.mkNumError "Atoi" s Strconv.ErrRange).
Proof.
  destruct s as [|c s]; [done|]. intros Hd. cbn [Mux.digits1] in Hd.
  pose proof Hd as Hd'. apply all_digits_cons in Hd' as [Hc Hs].
  assert (Hplus : c <> "+"%char)
    by (intros ->; change (Strconv.byte "+"%char) with 43 in Hc; lia).
  assert (Hminus : c <> "-"%char)
    by (intros ->; change (Strconv.byte "-"%char) with 45 in Hc; lia).
  unfold Strconv.Atoi, Strconv.decimal.
  set (sLen := Z.of_nat (String.length (String c s))).
  destruct (decide (0 < sLen < 19)) as [Hshort|Hlong].
  - rewrite bool_decide_eq_false_2 by tauto. cbn [andb].
    rewrite fast_loop_digits by done.
    destruct (decide (c = "-"%char)); [done|].
    pose proof (decimal_from_lt (String c s) 0 Hd) as Hlt.
    assert (10 ^ sLen <= 10 ^ 18) by (apply Z.pow_le_mono_r; lia).
    rewrite max_int_value.
    destruct (decide (_ <= _)) as [|Hbig]; [done|].
    exfalso. apply Hbig. fold sLen in Hlt. lia.
  - unfold Strconv.ParseInt.
    rewrite bool_decide_eq_false_2 by done.
    destruct (decide (c = "+"%char \/ c = "-"%char)); [tauto|].
    unfold Strconv.ParseUint.
    rewrite ParseUint_loop_digits by (rewrite ?maxUint64_value; first [done | lia]).
    rewrite maxUint64_value, max_int_value.
    pose proof (decimal_from_ge (String c s) 0 Hd) as Hge.
    destruct (decide (Strconv.decimal_from (String c s) 0 <= 18446744073709551615)) as [Hfit|Hover].
    + cbn [negb andb].
      destruct (decide (Strconv.decimal_from (String c s) 0 <= 9223372036854775807)).
      * rewrite bool_decide_eq_false_2 by lia. done.
      * rewrite bool_decide_eq_true_2 by lia. done.
    + cbn [negb andb]. rewrite bool_decide_eq_true_2 by lia.
      destruct (decide (_ <= 9223372036854775807)); [lia | done].
Qed.

Example Atoi_42 : Strconv.Atoi "42" = inl 42.
Proof. reflexivity. Qed.

Example Atoi_minus_7 : Strconv.Atoi "-7" = inl (-7).
Proof. reflexivity. Qed.

Example Atoi_max : Strconv.Atoi "9223372036854775807" = inl GoInt.max_int.
Proof. reflexivity. Qed.

Example Atoi_past_max :
  Strconv.Atoi "9223372036854775808"
  = inr (Strconv.mkNumError "Atoi" "9223372036854775808" Strconv.ErrRange).
Proof. reflexivity. Qed.

Example Atoi_abc :
  Strconv.Atoi "abc" = inr (Strconv.mkNumError "Atoi" "abc" Strconv.ErrSyntax).
Proof. reflexivity. Qed.

Example Atoi_range_before_syntax :
  Strconv.Atoi "99999999999999999999999x"
  = inr (Strconv.mkNumError "Atoi" "99999999999999999999999x" Strconv.ErrRange).
Proof. reflexivity. Qed.

Lemma Atoi_digits_nonneg (s : string) (id : Z) :
  Mux.digits1 s = true -> Strconv.Atoi s = inl id -> 0 <= id.
Proof.
  intros Hd. rewrite (Atoi_digits s Hd).
  destruct (decide _); [|done]. intros [= <-].
  destruct s; [done|]. apply (decimal_from_ge _ 0); [done | lia].
Qed.

(** ** The router *)

#[local] Arguments String.append !_ _ / : simpl nomatch.

Lemma digit_not_slash (c : ascii) : Mux.is_digit c = true -> c <> "/"%char.
Proof.
  intros Hc%is_digit_spec ->. change (Strconv.byte "/"%char) with 47 in Hc. lia.
Qed.

Lemma digit_not_dot (c : ascii) : Mux.is_digit c = true -> c <> "."%char.
Proof.
  intros Hc%is_digit_spec ->. change (Strconv.byte "."%char) with 46 in Hc. lia.
Qed.

Lemma segments_digits (s : string) :
  Mux.all_digits s = true -> Mux.segments s = [s].
Proof.
  induction s as [|c s IH]; [done|]. simpl.
  intros [Hc Hs]%andb_true_iff.
  destruct (decide (c = "/"%char)) as [->|_]; [by apply digit_not_slash in Hc|].
  by rewrite IH.
Qed.

Lemma digits1_plain_element (s : string) :
  Mux.digits1 s = true -> s <> EmptyString /\ s <> "." /\ s <> "..".
Proof.
  destruct s as [|c s]; [done|]. simpl. intros [Hc _]%andb_true_iff.
  pose proof (digit_not_dot c Hc). repeat split; congruence.
Qed.

Lemma ends_with_slash_digits (s : string) :
  Mux.digits1 s = true -> Mux.ends_with_slash s = false.
Proof.
  destruct s as [|c s]; [done|]. cbn [Mux.digits1].
  revert c. induction s as [|d s IH]; intros c [Hc Hs]%andb_true_iff.
  - simpl. apply bool_decide_eq_false_2. by apply digit_not_slash.
  - change (Mux.ends_with_slash (String c (String d s)))
      with (Mux.ends_with_slash (String d s)).
    by apply IH.
Qed.

Lemma append_empty_r (s : string) : s +:+ EmptyString = s.
Proof. induction s as [|c s IH]; simpl; [done | by rewrite IH]. Qed.

(** A path [/users/<digits>] is in canonical form: no redirect. *)
Lemma cleanPath_users_id (s : string) :
  Mux.digits1 s = true -> Mux.cleanPath ("/users/" +:+ s) = "/users/" +:+ s.
Proof.
  intros Hd.
  pose proof (digits1_plain_element s Hd) as (Hne & Hdot & Hdots).
  assert (Hall : Mux.all_digits s = true) by (by destruct s).
  assert (Hseg : Mux.segments ("/users/" +:+ s) = [EmptyString; "users"; s]).
  { simpl. by rewrite (segments_digits s Hall). }
  assert (Hclean : Mux.path_Clean ("/users/" +:+ s) = "/users/" +:+ s).
  { unfold Mux.path_Clean. rewrite Hseg. cbn [Mux.clean_segments].
    destruct (decide (EmptyString = EmptyString \/ EmptyString = ".")) as [_|?]; [|tauto].
    destruct (decide ("users" = EmptyString \/ "users" = ".")) as [[?|?]|_]; [done..|].
    destruct (decide ("users" = "..")); [done|].
    destruct (decide (s = EmptyString \/ s = ".")); [tauto|].
    destruct (decide (s = "..")); [done|].
    simpl. by rewrite append_empty_r. }
  assert (Hend : Mux.ends_with_slash ("/users/" +:+ s) = false).
  { destruct s as [|c s]; [done|]. apply (ends_with_slash_digits (String c s) Hd). }
  unfold Mux.cleanPath.
  change ("/users/" +:+ s) with (String "/" ("users/" +:+ s)) at 1.
  cbv iota. destruct (decide ("/"%char = "/"%char)); [|done].
  change (String "/" ("users/" +:+ s)) with ("/users/" +:+ s).
  by rewrite Hend, Hclean.
Qed.

Lemma strip_prefix_users (s : string) :
  Mux.strip_prefix "/users/" ("/users/" +:+ s) = Some s.
Proof. reflexivity. Qed.

(** A GET of [/users/<digits>] is dispatched to [GetUserHandler] with
    the digits as [id]; a DELETE to [DeleteUserHandler]. *)
Lemma Router_Match_users_id (meth s : string) hdr bdy :
  Mux.digits1 s = true ->
  Mux.Router_Match Mux.routes (request meth ("/users/" +:+ s) hdr bdy) false =
    if decide (meth = "GET") then Mux.Found Mux.TGet {["id" := s]}
    else if decide (meth = "DELETE") then Mux.Found Mux.TDelete {["id" := s]}
    else Mux.ErrMethodMismatch.
Proof.
  intros Hd. unfold Mux.routes, Mux.Router_Match, Mux.Route_Match, request.
  cbn [Mux.template Mux.methods Mux.target Path Method Mux.match_template].
  destruct (decide ("/users/" +:+ s = "/metrics")) as [Heq|_]; [done|].
  destruct (decide ("/users/" +:+ s = "/users")) as [Heq|_]; [done|].
  rewrite strip_prefix_users, Hd.
  rewrite !(bool_decide_ext _ _ (list_elem_of_singleton _ _)).
  destruct (decide (meth = "GET")) as [->|Hget].
  { by rewrite bool_decide_eq_true_2. }
  rewrite bool_decide_eq_false_2 by done.
  destruct (decide (meth = "DELETE")) as [->|Hdel].
  { by rewrite bool_decide_eq_true_2. }
  by rewrite bool_decide_eq_false_2.
Qed.

(** Under [/users/], an id that is not one or more digits matches no
    route. *)
Lemma Router_Match_users_other (meth s : string) hdr bdy :
  Mux.digits1 s = false ->
  Mux.Router_Match Mux.routes (request meth ("/users/" +:+ s) hdr bdy) false = Mux.ErrNotFound.
Proof.
  intros Hd. unfold Mux.routes, Mux.Router_Match, Mux.Route_Match, request.
  cbn [Mux.template Mux.methods Mux.target Path Method Mux.match_template].
  destruct (decide ("/users/" +:+ s = "/metrics")) as [Heq|_]; [done|].
  destruct (decide ("/users/" +:+ s = "/users")) as [Heq|_]; [done|].
  by rewrite strip_prefix_users, Hd.
Qed.

(** ** Response writers *)

Lemma WriteHeader_fresh (code : Z) (w : ResponseWriter) :
  status w = None ->
  WriteHeader code w = mkResponseWriter (header w) (Some code) (header w) (body w).
Proof. intros Hs. unfold WriteHeader. by rewrite Hs. Qed.

Lemma WriteHeader_again (code : Z) (w : ResponseWriter) :
  is_Some (status w) -> WriteHeader code w = w.
Proof. intros [c Hs]. unfold WriteHeader. by rewrite Hs. Qed.

Lemma Write_after_status (bytes : string) (w : ResponseWriter) (code : Z) :
  status w = Some code -> bodyAllowedForStatus code = true ->
  Write bytes w = mkResponseWriter (header w) (Some code) (sent w) (body w +:+ bytes).
Proof.
  intros Hs Hb. unfold Write. rewrite WriteHeader_again by (by eexists).
  rewrite Hs. simpl. by rewrite Hb.
Qed.

Lemma http_Error_fresh (w : ResponseWriter) (msg : string) (code : Z) :
  status w = None -> bodyAllowedForStatus code = true ->
  status (http_Error w msg code) = Some code /\
  body (http_Error w msg code) = body w +:+ msg +:+ newline /\
  sent (http_Error w msg code) !! "Content-Type" = Some "text/plain; charset=utf-8".
Proof.
  intros Hs Hb. unfold http_Error.
  rewrite (WriteHeader_fresh code) by done.
  erewrite Write_after_status by (simpl; done).
  simpl. repeat split.
  rewrite lookup_insert_ne by done. by rewrite lookup_insert_eq.
Qed.

Lemma Encoder_Encode_fresh (w : ResponseWriter) (json : string) :
  status w = None ->
  Encoder_Encode w json =
    mkResponseWriter (header w) (Some StatusOK) (header w) (body w +:+ json +:+ newline).
Proof.
  intros Hs. unfold Encoder_Encode, Write.
  rewrite (WriteHeader_fresh StatusOK) by done. reflexivity.
Qed.

Lemma Vars_Get_with_vars (r : Request) (k v : string) :
  Vars_Get (with_vars r {[ k := v ]}) k = v.
Proof. unfold Vars_Get, with_vars. cbn [Vars]. by rewrite lookup_singleton_eq. Qed.

Lemma Header_Set_status k v w : status (Header_Set k v w) = status w.
Proof. reflexivity. Qed.

Lemma Header_Set_lookup k v w : header (Header_Set k v w) !! k = Some v.
Proof. apply lookup_insert_eq. Qed.

(** ** The handlers *)

Section Handlers.

Context `{Telemetry} `{Json}.

Lemma mret_run {A : Type} (a : A) (st : World) : mret (M := M) a st = Done [] a st.
Proof. reflexivity. Qed.

Lemma mbind_run {A B : Type} (m : M A) (f : A -> M B) (st : World) :
  (m ≫= f) st =
    match m st with
    | Done out a st' => printed_before out (f a st')
    | Panic out => Panic out
    end.
Proof. unfold mbind, M_bind. destruct (m st); [|done]. by destruct (f a st0). Qed.

Lemma printed_before_nil {A : Type} (res : Res A) : printed_before [] res = res.
Proof. by destruct res. Qed.

(** The middleware: a possible warning, the header, then the handler. *)
Lemma ContentTypeMiddleware_run (next : Handler) (w : ResponseWriter) (r : Request) (st : World) :
  ContentTypeMiddleware next w r st =
    printed_before (accept_warning (Header r))
      (next (Header_Set "Content-Type" "application/json" w) r st).
Proof.
  unfold ContentTypeMiddleware, accept_warning, Header_Get.
  rewrite mbind_run.
  destruct (decide (default EmptyString (Header r !! "Accept") ≠ "application/json")); reflexivity.
Qed.

(** [GetUserHandler] on a writer that has not written yet, by the
    outcome of [Atoi] and of the lookup. *)
Lemma GetUserHandler_run (w : ResponseWriter) (r : Request) (st : World) :
  GetUserHandler w r st =
    match Strconv.Atoi (Vars_Get r "id") with
    | inr err => Done [] (http_Error w (Strconv.NumError_Error err) StatusBadRequest) st
    | inl id =>
        match deref (heap st) (users (repo st)) !! id with
        | None => Done [] (http_Error w "User not found" StatusNotFound) st
        | Some u => Done [] (Encoder_Encode w (Marshal_User u)) st
        end
    end.
Proof.
  unfold GetUserHandler. destruct (Strconv.Atoi _) as [id|err]; [|reflexivity].
  rewrite mbind_run. unfold repo_Find, Find.
  destruct (deref (heap st) (users (repo st)) !! id); reflexivity.
Qed.

(** [ListUserHandler] never takes its 500 branch: it encodes the map as
    it stands. *)
Lemma ListUserHandler_run (w : ResponseWriter) (r : Request) (st : World) :
  ListUserHandler w r st
  = Done [] (Encoder_Encode w (Marshal_Users (deref (heap st) (users (repo st))))) st.
Proof. reflexivity. Qed.

Lemma ListUserHandler_status (w : ResponseWriter) (r : Request) (st : World) :
  status w = None -> response_status (ListUserHandler w r st) = Some StatusOK.
Proof.
  intros Hw. rewrite ListUserHandler_run. unfold response_status. cbn [response_of mbind option_bind].
  by rewrite Encoder_Encode_fresh.
Qed.

Lemma serve_users_id (meth s : string) hdr bdy (st : World) :
  Mux.digits1 s = true ->
  serve (request meth ("/users/" +:+ s) hdr bdy) st =
    if decide (meth = "GET") then
      printed_before (accept_warning hdr)
        (GetUserHandler (Header_Set "Content-Type" "application/json" newResponseWriter)
           (with_vars (request meth ("/users/" +:+ s) hdr bdy) {["id" := s]}) st)
    else if decide (meth = "DELETE") then
      printed_before (accept_warning hdr)
        (DeleteUserHandler (Header_Set "Content-Type" "application/json" newResponseWriter)
           (with_vars (request meth ("/users/" +:+ s) hdr bdy) {["id" := s]}) st)
    else Done [] (WriteHeader StatusMethodNotAllowed newResponseWriter) st.
Proof.
  intros Hd. unfold serve, Router_ServeHTTP.
  change (Path (request meth ("/users/" +:+ s) hdr bdy)) with ("/users/" +:+ s).
  rewrite (cleanPath_users_id s Hd).
  destruct (decide ("/users/" +:+ s ≠ "/users/" +:+ s)); [done|].
  rewrite (Router_Match_users_id meth s hdr bdy Hd).
  destruct (decide (meth = "GET")); [by rewrite ContentTypeMiddleware_run|].
  destruct (decide (meth = "DELETE")); [by rewrite ContentTypeMiddleware_run|].
  reflexivity.
Qed.

Lemma serve_users_other (meth s : string) hdr bdy (st : World) :
  Mux.digits1 s = false ->
  serve (request meth ("/users/" +:+ s) hdr bdy) st =
    if decide (Mux.cleanPath ("/users/" +:+ s) ≠ "/users/" +:+ s) then
      Done [] (WriteHeader StatusMovedPermanently
                 (Header_Set "Location" (Mux.cleanPath ("/users/" +:+ s)) newResponseWriter)) st
    else Done [] (http_Error newResponseWriter "404 page not found" StatusNotFound) st.
Proof.
  intros Hd. unfold serve, Router_ServeHTTP.
  change (Path (request meth ("/users/" +:+ s) hdr bdy)) with ("/users/" +:+ s).
  destruct (decide (_ ≠ _)); [reflexivity|].
  by rewrite (Router_Match_users_other meth s hdr bdy Hd).
Qed.

End Handlers.

(** ** GET /users/{id} *)

(** C4, as the code has it. A GET of [/users/<s>] reaches
    [GetUserHandler] exactly when [s] is one or more decimal digits. Then:
    digits beyond the range of [int] are answered 400 with the text of
    the parse error; an id that parses and is not stored is answered 404
    with the fixed message; a stored id is answered 200 with the user as
    JSON. When [s] is anything else the handler does not run and the
    router answers, with 404 or with a redirect to the canonical path. *)
Theorem get_user_by_id `{Telemetry} `{Json}
    (s : string) (hdr : gmap string string) (bdy : string) (st : World) :
  let res := serve (request "GET" ("/users/" +:+ s) hdr bdy) st in
  (Mux.digits1 s = true -> GoInt.max_int < Strconv.decimal s ->
     exists w, res = Done (accept_warning hdr) w st /\
       status w = Some StatusBadRequest /\
       body w = Strconv.NumError_Error (Strconv.mkNumError "Atoi" s Strconv.ErrRange) +:+ newline) /\
  (Mux.digits1 s = true -> Strconv.decimal s <= GoInt.max_int ->
   stored st (Strconv.decimal s) = None ->
     exists w, res = Done (accept_warning hdr) w st /\
       status w = Some StatusNotFound /\
       body w = "User not found" +:+ newline) /\
  (forall u, Mux.digits1 s = true -> Strconv.decimal s <= GoInt.max_int ->
   stored st (Strconv.decimal s) = Some u ->
     exists w, res = Done (accept_warning hdr) w st /\
       status w = Some StatusOK /\
       body w = Marshal_User u +:+ newline /\
       sent w !! "Content-Type" = Some "application/json") /\
  (Mux.digits1 s = false ->
     exists w, res = Done [] w st /\
       ((status w = Some StatusNotFound /\ body w = "404 page not found" +:+ newline) \/
        (status w = Some StatusMovedPermanently /\ body w = EmptyString))).
Proof.
  intros res.
  assert (Hrun : Mux.digits1 s = true ->
    res = printed_before (accept_warning hdr)
      (match Strconv.Atoi s with
       | inr err => Done [] (http_Error (Header_Set "Content-Type" "application/json" newResponseWriter)
                               (Strconv.NumError_Error err) StatusBadRequest) st
       | inl id =>
           match stored st id with
           | None => Done [] (http_Error (Header_Set "Content-Type" "application/json" newResponseWriter)
                                "User not found" StatusNotFound) st
           | Some u => Done [] (Encoder_Encode (Header_Set "Content-Type" "application/json" newResponseWriter)
                                  (Marshal_User u)) st
           end
       end)).
  { intros Hd. unfold res. rewrite (serve_users_id "GET" s hdr bdy st Hd).
    destruct (decide ("GET" = "GET")); [|done].
    by rewrite GetUserHandler_run, Vars_Get_with_vars. }
  split; [|split; [|split]].
  - intros Hd Hbig. rewrite (Hrun Hd), (Atoi_digits s Hd).
    destruct (decide (Strconv.decimal s <= GoInt.max_int)); [lia|].
    eexists. cbn [printed_before]. rewrite app_nil_r. split; [reflexivity|].
    by destruct (http_Error_fresh (Header_Set "Content-Type" "application/json" newResponseWriter)
               (Strconv.NumError_Error (Strconv.mkNumError "Atoi" s Strconv.ErrRange))
               StatusBadRequest) as (? & ? & ?).
  - intros Hd Hfit Hnone. rewrite (Hrun Hd), (Atoi_digits s Hd).
    destruct (decide (Strconv.decimal s <= GoInt.max_int)); [|lia].
    rewrite Hnone. eexists. cbn [printed_before]. rewrite app_nil_r. split; [reflexivity|].
    by destruct (http_Error_fresh (Header_Set "Content-Type" "application/json" newResponseWriter)
               "User not found" StatusNotFound) as (? & ? & ?).
  - intros u Hd Hfit Hsome. rewrite (Hrun Hd), (Atoi_digits s Hd).
    destruct (decide (Strconv.decimal s <= GoInt.max_int)); [|lia].
    rewrite Hsome. eexists. cbn [printed_before]. rewrite app_nil_r. split; [reflexivity|].
    rewrite Encoder_Encode_fresh by done. cbn [status body sent].
    split; [done|]. split; [done|]. apply Header_Set_lookup.
  - intros Hd. unfold res. rewrite (serve_users_other "GET" s hdr bdy st Hd).
    destruct (decide (_ ≠ _)); eexists; (split; [reflexivity|]).
    + right. by split.
    + left.
      by destruct (http_Error_fresh newResponseWriter "404 page not found" StatusNotFound)
        as (? & ? & ?).
Qed.

Lemma get_user_by_id_witness :
  let st0 := @initial_world Fixture.broken tt in
  let st1 := @mkWorld Fixture.broken (mkRepo 1%positive 2)
               (<[1%positive := {[ 1 := mkUser 1 "Ada" ]}]> ∅) tt in
  (exists w, @serve Fixture.broken Fixture.json
               (request "GET" "/users/99999999999999999999" ∅ EmptyString) st0
             = Done (accept_warning ∅) w st0 /\ status w = Some 400) /\
  (exists w, @serve Fixture.broken Fixture.json
               (request "GET" "/users/999999" ∅ EmptyString) st0
             = Done (accept_warning ∅) w st0 /\ status w = Some 404) /\
  (exists w, @serve Fixture.broken Fixture.json
               (request "GET" "/users/1" ∅ EmptyString) st1
             = Done (accept_warning ∅) w st1 /\ status w = Some 200 /\
             body w = Fixture.marshal_user (mkUser 1 "Ada") +:+ newline) /\
  (exists w, @serve Fixture.broken Fixture.json
               (request "GET" "/users/abc" ∅ EmptyString) st0
             = Done [] w st0 /\ status w <> Some 400).
Proof.
  intros st0 st1. split; [|split; [|split]].
  - destruct (@get_user_by_id Fixture.broken Fixture.json
                "99999999999999999999" ∅ EmptyString st0) as (H400 & _).
    destruct H400 as (w & Hrun & Hst & _); [reflexivity | reflexivity |].
    exists w. split; [exact Hrun | exact Hst].
  - destruct (@get_user_by_id Fixture.broken Fixture.json
                "999999" ∅ EmptyString st0) as (_ & H404 & _).
    destruct H404 as (w & Hrun & Hst & _);
      [reflexivity | vm_compute; discriminate | reflexivity |].
    exists w. split; [exact Hrun | exact Hst].
  - destruct (@get_user_by_id Fixture.broken Fixture.json
                "1" ∅ EmptyString st1) as (_ & _ & H200 & _).
    destruct (H200 (mkUser 1 "Ada")) as (w & Hrun & Hst & Hbody & _);
      [reflexivity | vm_compute; discriminate | reflexivity |].
    exists w. split; [exact Hrun |]. split; [exact Hst | exact Hbody].
  - destruct (@get_user_by_id Fixture.broken Fixture.json
                "abc" ∅ EmptyString st0) as (_ & _ & _ & Hother).
    destruct Hother as (w & Hrun & Hst); [reflexivity|].
    exists w. split; [exact Hrun|].
    destruct Hst as [[-> _]|[-> _]]; discriminate.
Defined.

(** C4, as the specification words it, fails: [abc] is not a well-formed
    integer, and GET /users/abc is answered 404 by the router, not 400;
    and the handler itself, handed the id [-1], which is an integer but
    not a non-negative one, answers 404 as well. *)
Lemma get_users_abc_is_404 :
  let st0 := @initial_world Fixture.broken tt in
  Strconv.Atoi "abc" = inr (Strconv.mkNumError "Atoi" "abc" Strconv.ErrSyntax) /\
  response_status (@serve Fixture.broken Fixture.json
                     (request "GET" "/users/abc" ∅ EmptyString) st0)
    = Some StatusNotFound /\
  response_status (@serve Fixture.broken Fixture.json
                     (request "GET" "/users/abc" ∅ EmptyString) st0)
    <> Some StatusBadRequest /\
  Strconv.Atoi "-1" = inl (-1) /\
  response_status (@GetUserHandler Fixture.broken Fixture.json newResponseWriter
                     (mkRequest "GET" "/users/-1" ∅ EmptyString {[ "id" := "-1" ]}) st0)
    = Some StatusNotFound.
Proof.
  intros st0. split; [reflexivity|]. split; [reflexivity|].
  split; [discriminate|]. split; reflexivity.
Qed.

(** ** DELETE /users/{id} *)

Lemma Delete_idempotent (r : Repo) (h : Heap) (id : Z) :
  Delete r (Delete r h id) id = Delete r h id.
Proof.
  apply Delete_absent. rewrite deref_Delete. apply lookup_delete_eq.
Qed.

(** C8. Whenever the id handed to [DeleteUserHandler] parses, the handler
    deletes that id from the repository, whether it is stored or not,
    and answers 204 without writing a body; run again on the state it
    left, it answers 204 again. *)
Theorem delete_user_handler `{Telemetry}
    (w : ResponseWriter) (r : Request) (st : World) (id : Z) :
  status w = None ->
  Strconv.Atoi (Vars_Get r "id") = inl id ->
  let st' := mkWorld (repo st) (Delete (repo st) (heap st) id) (sink st) in
  let w' := WriteHeader StatusNoContent w in
  DeleteUserHandler w r st = Done [] w' st' /\
  DeleteUserHandler w r st' = Done [] w' st' /\
  status w' = Some StatusNoContent /\
  body w' = body w /\
  stored st' id = None.
Proof.
  intros Hw Hid st' w'.
  assert (Hrun : forall s : World,
            DeleteUserHandler w r s
            = Done [] w' (mkWorld (repo s) (Delete (repo s) (heap s) id) (sink s))).
  { intros s. unfold DeleteUserHandler. rewrite Hid. reflexivity. }
  split; [apply Hrun|]. split.
  - rewrite Hrun. unfold st'. cbn [repo heap sink]. by rewrite Delete_idempotent.
  - unfold w'. rewrite WriteHeader_fresh by done. cbn [status body].
    split; [done|]. split; [done|].
    unfold stored, st'. cbn [repo heap]. rewrite deref_Delete. apply lookup_delete_eq.
Qed.

Lemma delete_user_handler_witness :
  let st0 := @initial_world Fixture.broken tt in
  let r := mkRequest "DELETE" "/users/1" ∅ EmptyString {[ "id" := "1" ]} in
  exists st',
    @DeleteUserHandler Fixture.broken newResponseWriter r st0
      = Done [] (WriteHeader StatusNoContent newResponseWriter) st' /\
    @DeleteUserHandler Fixture.broken newResponseWriter r st'
      = Done [] (WriteHeader StatusNoContent newResponseWriter) st' /\
    body (WriteHeader StatusNoContent newResponseWriter) = EmptyString.
Proof.
  intros st0 r.
  destruct (@delete_user_handler Fixture.broken newResponseWriter r st0 1)
    as (H1 & H2 & _ & Hbody & _); [reflexivity | reflexivity |].
  eexists. split; [exact H1|]. split; [exact H2 | exact Hbody].
Defined.

(** The same through the router: a DELETE of [/users/<digits>] with the
    digits in the range of [int] is answered 204 with an empty body. *)
Lemma delete_user_routed `{Telemetry} `{Json}
    (s : string) (hdr : gmap string string) (bdy : string) (st : World) :
  Mux.digits1 s = true -> Strconv.decimal s <= GoInt.max_int ->
  exists w,
    serve (request "DELETE" ("/users/" +:+ s) hdr bdy) st
      = Done (accept_warning hdr) w
          (mkWorld (repo st) (Delete (repo st) (heap st) (Strconv.decimal s)) (sink st)) /\
    status w = Some StatusNoContent /\ body w = EmptyString.
Proof.
  intros Hd Hfit. rewrite (serve_users_id "DELETE" s hdr bdy st Hd).
  destruct (decide ("DELETE" = "GET")); [done|].
  destruct (decide ("DELETE" = "DELETE")); [|done].
  unfold DeleteUserHandler. rewrite Vars_Get_with_vars, (Atoi_digits s Hd).
  destruct (decide (Strconv.decimal s <= GoInt.max_int)); [|lia].
  eexists. split.
  - rewrite mbind_run. unfold repo_Delete. rewrite mret_run.
    cbn [printed_before]. by rewrite !app_nil_r.
  - split; reflexivity.
Qed.

(** ** POST /users *)

Section Create.

Context `{Telemetry} `{Json}.

(** [CreateUserHandler], step by step. *)
Lemma CreateUserHandler_run (w : ResponseWriter) (r : Request) (st : World) :
  CreateUserHandler w r st =
    match Decode_User (Body r) zeroUser with
    | (_, Some e) => Done [] (http_Error w e StatusBadRequest) st
    | (u, None) =>
        match Save (repo st) (heap st) u with
        | None => Panic []
        | Some (user, r', h') =>
            let '(s, err) :=
              Meter_Int64Counter "go-http-server-e" "registeredUsers.count" (sink st) in
            Done (match err with Some e => ["error otel: " +:+ e] | None => [] end)
                 (Encoder_Encode
                    (WriteHeader StatusCreated (Header_Set "Content-Type" "application/json" w))
                    (Marshal_User user))
                 (mkWorld r' h' (Counter_Add "go-http-server-e" "registeredUsers.count" 1 s))
        end
    end.
Proof.
  unfold CreateUserHandler.
  destruct (Decode_User (Body r) zeroUser) as [u [e|]]; [reflexivity|].
  rewrite mbind_run. unfold repo_Save.
  destruct (Save (repo st) (heap st) u) as [[[user r'] h']|]; [|reflexivity].
  rewrite mbind_run. unfold meter_Int64Counter. cbn [sink repo heap].
  destruct (Meter_Int64Counter _ _ (sink st)) as [s err].
  rewrite mbind_run.
  destruct err as [e|]; cbn [Printf mret M_ret printed_before];
    rewrite mbind_run; unfold counter_Add; rewrite mret_run; reflexivity.
Qed.

(** The response to a body that decodes, in closed form. *)
Lemma created_response (w : ResponseWriter) (json : string) :
  status w = None ->
  Encoder_Encode (WriteHeader StatusCreated (Header_Set "Content-Type" "application/json" w)) json
  = mkResponseWriter (<["Content-Type" := "application/json"]> (header w))
                     (Some StatusCreated)
                     (<["Content-Type" := "application/json"]> (header w))
                     (body w +:+ json +:+ newline).
Proof.
  intros Hw. rewrite WriteHeader_fresh by done.
  unfold Encoder_Encode. by erewrite Write_after_status.
Qed.

End Create.

(** C5. On a writer that has not written yet and a repository whose map
    is allocated: when the body does not decode, [CreateUserHandler]
    answers 400 with the text of the decoding error and changes nothing;
    when it decodes, the handler saves the user and answers 201 with
    [Content-Type: application/json] and the stored user as JSON. The
    response is the same for every metrics sink and every state of it: an
    error from creating the counter is printed and nothing else, and the
    same request against any other sink gets the same response. *)
Theorem create_user_handler `{Telemetry} `{Json}
    (w : ResponseWriter) (r : Request) (st : World) :
  status w = None ->
  repo_ok (repo st) (heap st) ->
  (forall u e, Decode_User (Body r) zeroUser = (u, Some e) ->
     CreateUserHandler w r st = Done [] (http_Error w e StatusBadRequest) st /\
     status (http_Error w e StatusBadRequest) = Some StatusBadRequest /\
     body (http_Error w e StatusBadRequest) = body w +:+ e +:+ newline) /\
  (forall u, Decode_User (Body r) zeroUser = (u, None) ->
     let user := mkUser (nextID (repo st)) (Name u) in
     let w' := mkResponseWriter (<["Content-Type" := "application/json"]> (header w))
                                (Some StatusCreated)
                                (<["Content-Type" := "application/json"]> (header w))
                                (body w +:+ Marshal_User user +:+ newline) in
     let created := Meter_Int64Counter "go-http-server-e" "registeredUsers.count" (sink st) in
     exists st',
       CreateUserHandler w r st
         = Done (match created.2 with Some e => ["error otel: " +:+ e] | None => [] end) w' st' /\
       stored st' (nextID (repo st)) = Some user /\
       sink st' = Counter_Add "go-http-server-e" "registeredUsers.count" 1 created.1) /\
  (forall (T : Telemetry) (s : @Sink T),
     response_of (@CreateUserHandler T _ w r (@mkWorld T (repo st) (heap st) s))
     = response_of (CreateUserHandler w r st)).
Proof.
  intros Hw Hok. split; [|split].
  - intros u e Hdec. rewrite CreateUserHandler_run, Hdec.
    split; [reflexivity|].
    by destruct (http_Error_fresh w e StatusBadRequest) as (? & ? & ?).
  - intros u Hdec user w' created.
    destruct (Save_ok (repo st) (heap st) u Hok) as (h' & HS & Hmap & _).
    rewrite CreateUserHandler_run, Hdec, HS.
    unfold created. destruct (Meter_Int64Counter _ _ (sink st)) as [s err].
    eexists. split; [|split].
    + rewrite created_response by done. reflexivity.
    + unfold stored. cbn [repo heap users]. rewrite Hmap. apply lookup_insert_eq.
    + reflexivity.
  - intros T s. rewrite !CreateUserHandler_run. cbn [repo heap sink].
    destruct (Decode_User (Body r) zeroUser) as [u [e|]]; [reflexivity|].
    destruct (Save (repo st) (heap st) u) as [[[user r'] h']|]; [|reflexivity].
    destruct (Meter_Int64Counter _ _ s) as [s1 err1].
    destruct (Meter_Int64Counter _ _ (sink st)) as [s2 err2].
    reflexivity.
Qed.

Lemma create_user_handler_witness :
  let st0 := @initial_world Fixture.broken tt in
  let r := request "POST" "/users" ∅ (Fixture.name_body "Ada") in
  exists w' st',
    @CreateUserHandler Fixture.broken Fixture.json newResponseWriter r st0
      = Done ["error otel: instrument rejected"] w' st' /\
    status w' = Some 201 /\
    body w' = Fixture.marshal_user (mkUser 1 "Ada") +:+ newline /\
    response_of (@CreateUserHandler Fixture.counting Fixture.json newResponseWriter r
                   (@initial_world Fixture.counting 0)) = Some w'.
Proof.
  intros st0 r.
  destruct (@create_user_handler Fixture.broken Fixture.json newResponseWriter r st0)
    as (_ & Hok & Hany); [reflexivity | apply NewRepo_ok |].
  destruct (Hok (mkUser 0 "Ada")) as (st' & Hrun & _); [reflexivity|].
  eexists _, st'. split; [exact Hrun|]. split; [reflexivity|]. split; [reflexivity|].
  pose proof (Hany Fixture.counting 0) as Hsame.
  rewrite Hrun in Hsame. exact Hsame.
Defined.

(** A body that is not JSON, with the example decoder. *)
Example post_not_json :
  response_status (@serve Fixture.broken Fixture.json
                     (request "POST" "/users" ∅ "not json") (@initial_world Fixture.broken tt))
  = Some StatusBadRequest.
Proof. reflexivity. Qed.

(** ** The middleware *)

Lemma accept_warning_json (hdr : gmap string string) :
  accept_warning (<["Accept" := "application/json"]> hdr) = [].
Proof.
  unfold accept_warning. rewrite lookup_insert_eq. cbn [default from_option id].
  by destruct (decide _).
Qed.

Lemma user_handlers_ignore_headers `{Telemetry} `{Json} (t : Mux.Target) :
  t <> Mux.TMetrics ->
  forall w r k v st, handler_of t w (with_header r k v) st = handler_of t w r st.
Proof. intros Ht w r k v st. destruct t; [done | reflexivity..]. Qed.

(** C9, as the code has it. The middleware hands every handler, that
    of [/metrics] too, the request as it came and a writer whose
    [Content-Type] is already [application/json]; of [Accept] it makes
    nothing but the warning, printed when the value is not exactly
    [application/json]. For the four user handlers, which do not read
    [Accept], the run is then the one of the same request with
    [Accept: application/json], warning apart: same response, same
    state. *)
Theorem middleware_accept_only_warns `{Telemetry} `{Json}
    (t : Mux.Target) (w : ResponseWriter) (r : Request) (st : World) :
  let w1 := Header_Set "Content-Type" "application/json" w in
  header w1 !! "Content-Type" = Some "application/json" /\
  (forall next : Handler,
     ContentTypeMiddleware next w r st
     = printed_before (accept_warning (Header r)) (next w1 r st)) /\
  accept_warning (Header r)
    = (if decide (Header_Get r "Accept" = "application/json") then []
       else ["accept header is not application/json" +:+ newline]) /\
  (t <> Mux.TMetrics ->
     ContentTypeMiddleware (handler_of t) w r st
     = printed_before (accept_warning (Header r))
         (ContentTypeMiddleware (handler_of t) w
            (with_header r "Accept" "application/json") st)).
Proof.
  intros w1.
  split; [apply Header_Set_lookup|].
  split; [intros next; apply ContentTypeMiddleware_run|].
  split.
  - unfold accept_warning, Header_Get.
    destruct (decide (default EmptyString (Header r !! "Accept") ≠ "application/json"));
      destruct (decide (default EmptyString (Header r !! "Accept") = "application/json"));
      done.
  - intros Ht. rewrite !ContentTypeMiddleware_run.
    cbn [with_header Header]. rewrite accept_warning_json, printed_before_nil.
    by rewrite (user_handlers_ignore_headers t Ht).
Qed.

Lemma middleware_accept_only_warns_witness :
  let st1 := @mkWorld Fixture.broken (mkRepo 1%positive 2)
               (<[1%positive := {[ 1 := mkUser 1 "Ada" ]}]> ∅) tt in
  let r := mkRequest "GET" "/users/1" {[ "Accept" := "text/html" ]} EmptyString
             {[ "id" := "1" ]} in
  exists w',
    @ContentTypeMiddleware Fixture.broken (@GetUserHandler Fixture.broken Fixture.json)
      newResponseWriter (with_header r "Accept" "application/json") st1
    = Done [] w' st1 /\
    @ContentTypeMiddleware Fixture.broken (@GetUserHandler Fixture.broken Fixture.json)
      newResponseWriter r st1
    = Done ["accept header is not application/json" +:+ newline] w' st1 /\
    status w' = Some 200 /\
    sent w' !! "Content-Type" = Some "application/json" /\
    body w' = Fixture.marshal_user (mkUser 1 "Ada") +:+ newline.
Proof.
  intros st1 r.
  destruct (@middleware_accept_only_warns Fixture.broken Fixture.json
              Mux.TGet newResponseWriter r st1) as (_ & _ & _ & Hrun).
  specialize (Hrun ltac:(discriminate)). cbn [handler_of] in Hrun.
  eexists. split; [reflexivity|].
  split; [rewrite Hrun; reflexivity|].
  split; [reflexivity|]. split; reflexivity.
Defined.

(** C9, as the specification words it, fails on [/metrics], which is
    registered behind the same middleware: with a handler that chooses
    its format by [Accept], as the Prometheus handler does, the request
    that asks for the protobuf format and the same request with
    [Accept: application/json] get different [Content-Type] headers. *)
Lemma metrics_response_depends_on_accept :
  let st := @initial_world Fixture.negotiating 0 in
  let r := request "GET" "/metrics" {[ "Accept" := Fixture.protobuf_type ]} EmptyString in
  exists w1 w2,
    response_of (@serve Fixture.negotiating Fixture.json r st) = Some w1 /\
    response_of (@serve Fixture.negotiating Fixture.json
                   (with_header r "Accept" "application/json") st) = Some w2 /\
    sent w1 !! "Content-Type" = Some Fixture.protobuf_type /\
    sent w2 !! "Content-Type" = Some Fixture.text_type /\
    w1 <> w2.
Proof.
  intros st r. do 2 eexists.
  split; [reflexivity|]. split; [reflexivity|].
  split; [reflexivity|]. split; [reflexivity|].
  intros Heq. apply (f_equal (fun w => sent w !! "Content-Type")) in Heq.
  vm_compute in Heq. discriminate.
Qed.

(** ** Start-up and shut-down *)

Module LifecycleFacts.

Import Lifecycle.

Lemma start_stable (env_PORT : string) : stable env_PORT (start env_PORT).
Proof. by repeat split. Qed.

Lemma step_stable (env_PORT : string) (p p' : Process) (e : Event) :
  stable env_PORT p -> step p e = Some p' -> stable env_PORT p'.
Proof.
  intros (Hc & Hs & Hl & Ha). unfold step.
  destruct (alive p); [|done]. cbn [negb].
  destruct e, (pc p); try done;
    repeat match goal with
           | |- context [if ?b then _ else _] => destruct b eqn:?
           | |- context [match active ?s with _ => _ end] => destruct (active s) eqn:?
           end;
    try done; intros [= <-]; by repeat split.
Qed.

Lemma reachable_stable (env_PORT : string) (p : Process) :
  reachable env_PORT p -> stable env_PORT p.
Proof.
  intros [es Hrun]. revert p Hrun.
  generalize (start_stable env_PORT). generalize (start env_PORT).
  induction es as [|e es IH]; intros p0 Hp0 p; simpl.
  - by intros [= <-].
  - destruct (step p0 e) as [p1|] eqn:Hstep; [|done].
    apply IH. by eapply step_stable.
Qed.

(** [srv.Shutdown] never waits: once entered it can return at once,
    whatever the listening server is doing. *)
Lemma shutdown_never_waits (env_PORT : string) (p : Process) :
  reachable env_PORT p -> pc p = InShutdown ->
  step p ShutdownReturns
    = Some (mkProcess (configured p) (serving p) Returned (delivered p)).
Proof.
  intros (_ & _ & _ & Ha)%reachable_stable Hpc.
  unfold step, alive, shutdown_done. rewrite Hpc. cbn [negb].
  by rewrite bool_decide_eq_true_2.
Qed.

(** An interrupt leaves the listening server listening. *)
Lemma interrupt_keeps_listener (p p' : Process) :
  step p Interrupt = Some p' -> serving p' = serving p.
Proof.
  unfold step. destruct (alive p); [|done]. cbn [negb].
  destruct (pc p); [|done..]. by intros [= <-].
Qed.

End LifecycleFacts.

(** C2. With [PORT] unset: the server is bound, a request is accepted,
    the interrupt arrives. After the interrupt the server that accepts
    connections still listens and accepts one more request; [srv.Shutdown]
    then returns and [main] with it while both requests are in flight and
    no response has been delivered. *)
Theorem interrupt_abandons_requests_in_flight :
  exists p1 p2 p3,
    Lifecycle.run (Lifecycle.start EmptyString)
      [Lifecycle.BindOk; Lifecycle.Accept; Lifecycle.Interrupt] = Some p1 /\
    Lifecycle.pc p1 = Lifecycle.InShutdown /\
    Lifecycle.listening (Lifecycle.serving p1) = true /\
    Lifecycle.step p1 Lifecycle.Accept = Some p2 /\
    Lifecycle.active (Lifecycle.serving p2) = 2%nat /\
    Lifecycle.step p2 Lifecycle.ShutdownReturns = Some p3 /\
    Lifecycle.pc p3 = Lifecycle.Returned /\
    Lifecycle.active (Lifecycle.serving p3) = 2%nat /\
    Lifecycle.delivered p3 = 0%nat /\
    Lifecycle.step p3 Lifecycle.Complete = None.
Proof. do 3 eexists. repeat split. Qed.

(** C6. With [PORT] unset: the server that has accepted the connection is
    the one [http.ListenAndServe] built, with no read and no write
    timeout; [srv], which carries the timeouts of one and ten seconds,
    has no listener and no connection. *)
Theorem accepting_server_has_no_timeouts :
  exists p,
    Lifecycle.run (Lifecycle.start EmptyString) [Lifecycle.BindOk; Lifecycle.Accept] = Some p /\
    Lifecycle.active (Lifecycle.serving p) = 1%nat /\
    Lifecycle.config (Lifecycle.serving p) = Lifecycle.mkServer ":8080" 0 0 /\
    Lifecycle.ReadTimeout (Lifecycle.config (Lifecycle.serving p)) = 0 /\
    Lifecycle.WriteTimeout (Lifecycle.config (Lifecycle.serving p)) = 0 /\
    Lifecycle.config (Lifecycle.configured p)
      = Lifecycle.mkServer ":8080" Lifecycle.Second (10 * Lifecycle.Second) /\
    Lifecycle.listening (Lifecycle.configured p) = false /\
    Lifecycle.active (Lifecycle.configured p) = 0%nat.
Proof. eexists. repeat split. Qed.

(** In every state of every run, the server that listens has no timeout
    and [srv] accepts nothing. *)
Lemma timeouts_never_apply (env_PORT : string) (p : Lifecycle.Process) :
  Lifecycle.reachable env_PORT p ->
  Lifecycle.ReadTimeout (Lifecycle.config (Lifecycle.serving p)) = 0 /\
  Lifecycle.WriteTimeout (Lifecycle.config (Lifecycle.serving p)) = 0 /\
  Lifecycle.listening (Lifecycle.configured p) = false /\
  Lifecycle.active (Lifecycle.configured p) = 0%nat /\
  0 < Lifecycle.ReadTimeout (Lifecycle.config (Lifecycle.configured p))
    < Lifecycle.WriteTimeout (Lifecycle.config (Lifecycle.configured p)).
Proof.
  intros (Hc & Hs & Hl & Ha)%LifecycleFacts.reachable_stable.
  rewrite Hc, Hs. repeat split; try done.
Qed.

Lemma response_of_printed_before `{Telemetry} (pre : list string) (res : Res ResponseWriter) :
  response_of (printed_before pre res) = response_of res.
Proof. by destruct res. Qed.

(** Through the router: on every route but [/metrics], whose handler is
    the Prometheus library's, the response does not depend on [Accept]. *)
Lemma serve_ignores_accept `{Telemetry} `{Json} (r : Request) (v : string) (st : World) :
  (forall vars, Mux.Router_Match Mux.routes r false <> Mux.Found Mux.TMetrics vars) ->
  response_of (serve (with_header r "Accept" v) st) = response_of (serve r st).
Proof.
  intros Hroute. unfold serve, Router_ServeHTTP.
  change (Path (with_header r "Accept" v)) with (Path r).
  destruct (decide (Mux.cleanPath (Path r) ≠ Path r)); [reflexivity|].
  change (Mux.Router_Match Mux.routes (with_header r "Accept" v) false)
    with (Mux.Router_Match Mux.routes r false).
  destruct (Mux.Router_Match Mux.routes r false) as [t vars| |] eqn:Hm; [|reflexivity..].
  rewrite !ContentTypeMiddleware_run, !response_of_printed_before.
  change (with_vars (with_header r "Accept" v) vars)
    with (with_header (with_vars r vars) "Accept" v).
  rewrite user_handlers_ignore_headers; [reflexivity|].
  intros ->. by apply (Hroute vars).
Qed.

(** ** The examples of the specification, run

    With the example collaborators, from the state at process start. *)

Example create_then_get :
  @serve_all Fixture.broken Fixture.json
    [ request "POST" "/users" ∅ (Fixture.name_body "Ada");
      request "GET" "/users/1" ∅ EmptyString ]
    (@initial_world Fixture.broken tt)
  = [ Some (201, Fixture.marshal_user (mkUser 1 "Ada") +:+ newline);
      Some (200, Fixture.marshal_user (mkUser 1 "Ada") +:+ newline) ].
Proof. reflexivity. Qed.

Example get_abc_and_unknown :
  @serve_all Fixture.broken Fixture.json
    [ request "GET" "/users/abc" ∅ EmptyString;
      request "GET" "/users/999999" ∅ EmptyString ]
    (@initial_world Fixture.broken tt)
  = [ Some (404, "404 page not found" +:+ newline);
      Some (404, "User not found" +:+ newline) ].
Proof. reflexivity. Qed.

Example delete_twice :
  @serve_all Fixture.broken Fixture.json
    [ request "POST" "/users" ∅ (Fixture.name_body "Ada");
      request "DELETE" "/users/1" ∅ EmptyString;
      request "DELETE" "/users/1" ∅ EmptyString;
      request "GET" "/users/1" ∅ EmptyString ]
    (@initial_world Fixture.broken tt)
  = [ Some (201, Fixture.marshal_user (mkUser 1 "Ada") +:+ newline);
      Some (204, EmptyString);
      Some (204, EmptyString);
      Some (404, "User not found" +:+ newline) ].
Proof. reflexivity. Qed.

Example ids_are_not_reused :
  @serve_all Fixture.counting Fixture.json
    [ request "POST" "/users" ∅ (Fixture.name_body "Ada");
      request "DELETE" "/users/1" ∅ EmptyString;
      request "POST" "/users" ∅ (Fixture.name_body "Bob") ]
    (@initial_world Fixture.counting 0)
  = [ Some (201, Fixture.marshal_user (mkUser 1 "Ada") +:+ newline);
      Some (204, EmptyString);
      Some (201, Fixture.marshal_user (mkUser 2 "Bob") +:+ newline) ].
Proof. reflexivity. Qed.

(** * Further properties of the repository *)

(** [Save] touches one key: a lookup of any other id gives what it gave
    before. *)
Lemma Save_other (r : Repo) (h : Heap) (u u' : User) (r' : Repo) (h' : Heap) (id : Z) :
  Save r h u = Some (u', r', h') ->
  id <> nextID r ->
  Find r' h' id = Find r h id.
Proof.
  unfold Save. destruct (h !! users r) as [m|] eqn:Hm; [|done].
  intros [= <- <- <-] Hne. rewrite !Find_spec. unfold deref. cbn [users ID].
  rewrite lookup_insert_eq, Hm. simpl.
  by rewrite lookup_insert_ne.
Qed.

Lemma Save_other_witness :
  exists u' r' h',
    Save (NewRepo ∅).1 (NewRepo ∅).2 (mkUser 0 "Ada") = Some (u', r', h') /\
    Find r' h' 7 = Find (NewRepo ∅).1 (NewRepo ∅).2 7.
Proof.
  destruct (Save_ok (NewRepo ∅).1 (NewRepo ∅).2 (mkUser 0 "Ada") (NewRepo_ok ∅))
    as (h' & HS & _).
  do 3 eexists. split; [exact HS|].
  apply (Save_other _ _ _ _ _ _ 7 HS). rewrite NewRepo_nextID. lia.
Defined.

Lemma Delete_other_witness :
  let r := mkRepo 1%positive 3 in
  let h : Heap := <[1%positive := {[ 1 := mkUser 1 "Ada"; 2 := mkUser 2 "Bob" ]}]> ∅ in
  Find r (Delete r h 1) 2 = Find r h 2.
Proof. intros r h. apply Delete_other. lia. Defined.

(** *** Runs of calls in any order *)

(** The general step: a run that starts with every stored user under its
    own id, between [lo] and the counter [k], and with room in the counter
    for the saves to come. *)
Lemma run_calls_from (cs : list Call) (r : Repo) (h : Heap) (lo k : Z) :
  repo_ok r h ->
  GoInt.min_int <= k -> lo <= k ->
  k + Z.of_nat (saves cs) - 1 <= GoInt.max_int ->
  (saves cs <> O -> nextID r = k) ->
  (forall id u, deref h (users r) !! id = Some u -> ID u = id /\ lo <= id < k) ->
  exists res r' h',
    run_calls r h cs = Some (res, r', h') /\
    ID <$> res = ids_from k (saves cs) /\
    repo_ok r' h' /\
    users r' = users r /\
    (forall id u, deref h' (users r') !! id = Some u ->
       ID u = id /\ lo <= id < k + Z.of_nat (saves cs)).
Proof.
  revert r h k. induction cs as [|c cs IH]; intros r h k Hok Hmin Hlo Hmax Hk Hinv.
  - exists [], r, h. simpl. do 4 (split; [done|]).
    intros id u Hu. apply Hinv in Hu. lia.
  - destruct c as [| id | u | id]; cbn [run_calls saves] in *.
    + by apply IH.
    + by apply IH.
    + assert (Hnext : nextID r = k) by (by apply Hk).
      destruct (Save_ok r h u Hok) as (h1 & HS & Hmap & Hok1).
      rewrite HS.
      destruct (IH (mkRepo (users r) (GoInt.wrap (nextID r + 1))) h1 (k + 1))
        as (res & r' & h' & Hrun & Hids & Hok' & Husers & Hinv'); try done; try lia.
      * intros Hn. cbn [nextID]. rewrite Hnext. apply wrap_in_range.
        unfold GoInt.in_range. lia.
      * intros id v. cbn [users]. rewrite Hmap, Hnext.
        intros [[<- <-]|[Hne Hold]]%lookup_insert_Some.
        -- cbn [ID]. lia.
        -- apply Hinv in Hold. lia.
      * rewrite Hrun. do 3 eexists. split; [reflexivity|].
        cbn [fmap list_fmap ID ids_from]. rewrite Hnext.
        split; [by f_equal|]. split; [done|]. split; [done|].
        intros id v Hv. apply Hinv' in Hv. lia.
    + destruct (IH r (Delete r h id) k) as (res & r' & h' & Hrun & Hrest);
        try done.
      * by apply Delete_ok.
      * intros id' v. rewrite deref_Delete.
        intros [_ Hold]%lookup_delete_Some. by apply Hinv.
      * by exists res, r', h'.
Qed.

Lemma run_calls_fresh (h0 : Heap) (cs : list Call) :
  Z.of_nat (saves cs) <= GoInt.max_int ->
  exists res r' h',
    run_calls (NewRepo h0).1 (NewRepo h0).2 cs = Some (res, r', h') /\
    ID <$> res = ids_from 1 (saves cs) /\
    (forall id u, deref h' (users r') !! id = Some u ->
       ID u = id /\ 1 <= id < 1 + Z.of_nat (saves cs)).
Proof.
  intros Hn.
  destruct (run_calls_from cs (NewRepo h0).1 (NewRepo h0).2 1 1)
    as (res & r' & h' & Hrun & Hids & _ & _ & Hinv); try done; try lia.
  - apply NewRepo_ok.
  - rewrite NewRepo_empty. intros id u. by rewrite lookup_empty.
  - by exists res, r', h'.
Qed.

(** Ids are not reused: on a repository fresh from [NewRepo], in a run of
    [Get], [Find], [Save] and [Delete] calls in any order, the [Save]
    calls return the ids 1, 2, 3, ... in call order, whatever was
    deleted in between. *)
Theorem ids_not_reused_after_delete (h0 : Heap) (cs : list Call) :
  Z.of_nat (saves cs) <= GoInt.max_int ->
  exists res r' h',
    run_calls (NewRepo h0).1 (NewRepo h0).2 cs = Some (res, r', h') /\
    ID <$> res = ids_from 1 (saves cs) /\
    NoDup (ID <$> res).
Proof.
  intros Hn. destruct (run_calls_fresh h0 cs Hn) as (res & r' & h' & Hrun & Hids & _).
  exists res, r', h'. split; [done|]. split; [done|].
  rewrite Hids. apply ids_from_NoDup.
Qed.

Lemma ids_not_reused_after_delete_witness :
  exists res r' h',
    run_calls (NewRepo ∅).1 (NewRepo ∅).2
      [CallSave (mkUser 0 "Ada"); CallDelete 1; CallFind 1; CallSave (mkUser 0 "Bob")]
      = Some (res, r', h') /\
    ID <$> res = [1; 2].
Proof.
  destruct (ids_not_reused_after_delete ∅
      [CallSave (mkUser 0 "Ada"); CallDelete 1; CallFind 1; CallSave (mkUser 0 "Bob")])
    as (res & r' & h' & Hrun & Hids & _).
  - vm_compute. discriminate.
  - exists res, r', h'. split; [exact Hrun | exact Hids].
Defined.

(** Every user is stored under its own id: on a repository fresh from
    [NewRepo], after a run of calls in any order, whatever [Find] finds
    for an id carries that id, and the id is one that a [Save] of the run
    handed out. *)
Theorem found_user_carries_its_id (h0 : Heap) (cs : list Call) :
  Z.of_nat (saves cs) <= GoInt.max_int ->
  exists res r' h',
    run_calls (NewRepo h0).1 (NewRepo h0).2 cs = Some (res, r', h') /\
    forall id u, Find r' h' id = (u, true) ->
      ID u = id /\ 1 <= id <= Z.of_nat (saves cs).
Proof.
  intros Hn. destruct (run_calls_fresh h0 cs Hn) as (res & r' & h' & Hrun & _ & Hinv).
  exists res, r', h'. split; [done|].
  intros id u. rewrite Find_spec.
  destruct (deref h' (users r') !! id) as [v|] eqn:Hv; [|done].
  intros [= <-]. apply Hinv in Hv. lia.
Qed.

Lemma found_user_carries_its_id_witness :
  exists res r' h',
    run_calls (NewRepo ∅).1 (NewRepo ∅).2
      [CallSave (mkUser 5 "Ada"); CallSave (mkUser 5 "Bob"); CallDelete 1] = Some (res, r', h') /\
    forall id u, Find r' h' id = (u, true) -> ID u = id /\ 1 <= id <= 2.
Proof.
  destruct (found_user_carries_its_id ∅
      [CallSave (mkUser 5 "Ada"); CallSave (mkUser 5 "Bob"); CallDelete 1])
    as (res & r' & h' & Hrun & Hinv).
  - vm_compute. discriminate.
  - exists res, r', h'. split; [exact Hrun | exact Hinv].
Defined.

(** *** What a run of saves leaves in the map *)

Lemma stored_all_cons (m : gmap Z User) (u : User) (res : list User) :
  stored_all m (u :: res) = stored_all (<[ID u := u]> m) res.
Proof. reflexivity. Qed.

Lemma stored_all_lookup_other (res : list User) (m : gmap Z User) (k : Z) :
  k ∉ ID <$> res -> stored_all m res !! k = m !! k.
Proof.
  revert m. induction res as [|v res IH]; intros m Hk; [done|].
  rewrite stored_all_cons. cbn [fmap list_fmap] in Hk.
  apply not_elem_of_cons in Hk as [Hne Hk].
  rewrite IH by done. by rewrite lookup_insert_ne.
Qed.

Lemma stored_all_lookup (res : list User) (m : gmap Z User) (u : User) :
  NoDup (ID <$> res) -> u ∈ res -> stored_all m res !! ID u = Some u.
Proof.
  revert m. induction res as [|v res IH]; intros m Hnd Hu.
  - by apply elem_of_nil in Hu.
  - cbn [fmap list_fmap] in Hnd. apply NoDup_cons in Hnd as [Hv Hnd].
    rewrite stored_all_cons.
    apply elem_of_cons in Hu as [->|Hu].
    + rewrite stored_all_lookup_other by done. apply lookup_insert_eq.
    + by apply IH.
Qed.

Lemma stored_all_size (res : list User) (m : gmap Z User) :
  NoDup (ID <$> res) ->
  (forall u, u ∈ res -> m !! ID u = None) ->
  size (stored_all m res) = (size m + length res)%nat.
Proof.
  revert m. induction res as [|v res IH]; intros m Hnd Hnew.
  - simpl. lia.
  - cbn [fmap list_fmap] in Hnd. apply NoDup_cons in Hnd as [Hv Hnd].
    rewrite stored_all_cons, IH; [| done |].
    + rewrite map_size_insert_None by (apply Hnew; left). simpl. lia.
    + intros u Hu. rewrite lookup_insert_ne.
      * apply Hnew. by right.
      * intros Heq. apply Hv. rewrite Heq. by apply list_elem_of_fmap_2.
Qed.

Lemma save_all_stored (us : list User) (r : Repo) (h : Heap)
    (res : list User) (r' : Repo) (h' : Heap) :
  repo_ok r h ->
  save_all r h us = Some (res, r', h') ->
  users r' = users r /\
  deref h' (users r') = stored_all (deref h (users r)) res.
Proof.
  revert r h res. induction us as [|u us IH]; intros r h res Hok; simpl.
  - by intros [= <- <- <-].
  - destruct (Save_ok r h u Hok) as (h1 & HS & Hmap & Hok1). rewrite HS.
    destruct (save_all _ h1 us) as [[[rest r2] h2]|] eqn:Hrun; [|done].
    intros [= <- <- <-].
    destruct (IH _ _ _ Hok1 Hrun) as [Husers Hderef].
    cbn [users] in *. split; [done|].
    rewrite Husers in Hderef. rewrite Husers, Hderef, Hmap. reflexivity.
Qed.

(** No save is lost: on a repository fresh from [NewRepo], after a run of
    [n] saves the map holds exactly [n] users, and [Find] returns the
    user that the i-th save returned under the id i. *)
Theorem saved_users_are_all_stored (h0 : Heap) (us : list User) :
  Z.of_nat (length us) <= GoInt.max_int ->
  exists res r' h',
    save_all (NewRepo h0).1 (NewRepo h0).2 us = Some (res, r', h') /\
    size (deref h' (users r')) = length us /\
    (forall (i : nat) (u : User), res !! i = Some u ->
       Find r' h' (Z.of_nat i + 1) = (u, true)).
Proof.
  intros Hlen.
  destruct (save_all_ids us (NewRepo h0).1 (NewRepo h0).2)
    as (res & r' & h' & Hrun & Hids & Hnames & _).
  { apply NewRepo_ok. }
  { rewrite NewRepo_nextID. unfold GoInt.min_int, GoInt.bits. lia. }
  { rewrite NewRepo_nextID. lia. }
  rewrite NewRepo_nextID in Hids.
  destruct (save_all_stored us _ _ _ _ _ (NewRepo_ok h0) Hrun) as [_ Hmap].
  rewrite NewRepo_empty in Hmap.
  assert (Hnd : NoDup (ID <$> res)) by (rewrite Hids; apply ids_from_NoDup).
  assert (Hlenres : length res = length us).
  { rewrite <- (length_fmap Name res), Hnames. apply length_fmap. }
  exists res, r', h'. split; [done|]. split.
  - rewrite Hmap, stored_all_size; [| done | by intros; apply lookup_empty].
    rewrite map_size_empty. lia.
  - intros i u Hi.
    assert (Hid : ID u = Z.of_nat i + 1).
    { assert (Hl : (ID <$> res) !! i = Some (ID u)) by (by rewrite list_lookup_fmap, Hi).
      rewrite Hids, ids_from_lookup in Hl.
      - injection Hl as Hl. lia.
      - apply lookup_lt_Some in Hi. lia. }
    rewrite Find_spec, Hmap, <- Hid.
    rewrite (stored_all_lookup res ∅ u Hnd); [done|].
    by eapply list_elem_of_lookup_2.
Qed.

Lemma saved_users_are_all_stored_witness :
  exists res r' h',
    save_all (NewRepo ∅).1 (NewRepo ∅).2 [mkUser 0 "Ada"; mkUser 0 "Bob"] = Some (res, r', h') /\
    size (deref h' (users r')) = 2%nat.
Proof.
  destruct (saved_users_are_all_stored ∅ [mkUser 0 "Ada"; mkUser 0 "Bob"])
    as (res & r' & h' & Hrun & Hsize & _).
  - vm_compute. discriminate.
  - exists res, r', h'. split; [exact Hrun | exact Hsize].
Defined.

(** * Further properties of the server *)

Section Routes.

Context `{Telemetry} `{Json}.

(** A request for [/users] goes to [ListUserHandler] on GET, to
    [CreateUserHandler] on POST, and is refused on any other method. *)
Lemma serve_users (meth : string) hdr bdy (st : World) :
  serve (request meth "/users" hdr bdy) st =
    if decide (meth = "GET") then
      printed_before (accept_warning hdr)
        (ListUserHandler (Header_Set "Content-Type" "application/json" newResponseWriter)
           (with_vars (request meth "/users" hdr bdy) ∅) st)
    else if decide (meth = "POST") then
      printed_before (accept_warning hdr)
        (CreateUserHandler (Header_Set "Content-Type" "application/json" newResponseWriter)
           (with_vars (request meth "/users" hdr bdy) ∅) st)
    else Done [] (WriteHeader StatusMethodNotAllowed newResponseWriter) st.
Proof.
  unfold serve, Router_ServeHTTP.
  change (Path (request meth "/users" hdr bdy)) with "/users".
  change (Mux.cleanPath "/users") with "/users".
  destruct (decide ("/users" ≠ "/users")); [done|].
  unfold Mux.routes, Mux.Router_Match, Mux.Route_Match, request.
  cbn [Mux.template Mux.methods Mux.target Path Method Mux.match_template].
  destruct (decide ("/users" = "/metrics")); [done|].
  destruct (decide ("/users" = "/users")); [|done].
  change (Mux.strip_prefix "/users/" "/users") with (@None string).
  rewrite !(bool_decide_ext _ _ (list_elem_of_singleton _ _)).
  destruct (decide (meth = "GET")) as [->|Hget].
  { rewrite bool_decide_eq_true_2 by done. by rewrite ContentTypeMiddleware_run. }
  rewrite bool_decide_eq_false_2 by done.
  destruct (decide (meth = "POST")) as [->|Hpost].
  { rewrite bool_decide_eq_true_2 by done. by rewrite ContentTypeMiddleware_run. }
  by rewrite bool_decide_eq_false_2.
Qed.

(** The method of a request that a route accepted. *)
Lemma Router_Match_found (r : Request) (t : Mux.Target) (vars : gmap string string) :
  Mux.Router_Match Mux.routes r false = Mux.Found t vars ->
  match t with
  | Mux.TMetrics => True
  | Mux.TList | Mux.TGet => Method r = "GET"
  | Mux.TCreate => Method r = "POST"
  | Mux.TDelete => Method r = "DELETE"
  end.
Proof.
  unfold Mux.routes, Mux.Router_Match, Mux.Route_Match.
  cbn [Mux.template Mux.methods Mux.target].
  rewrite !(bool_decide_ext _ _ (list_elem_of_singleton _ _)).
  destruct (Mux.match_template (Mux.Literal "/metrics") (Path r)); [by intros [= <- <-]|].
  destruct (Mux.match_template (Mux.Literal "/users") (Path r)),
           (Mux.match_template Mux.UsersId (Path r));
    repeat match goal with
           | |- context [bool_decide ?P] => destruct (bool_decide_reflect P)
           end;
    try done; by intros [= <- <-].
Qed.

(** One request, served to its end on a repository whose map is
    allocated: [Save] does not meet a nil map, and the map stays
    allocated. *)
Lemma serve_answers (r : Request) (st : World) :
  repo_ok (repo st) (heap st) ->
  exists out w st',
    serve r st = Done out w st' /\ repo_ok (repo st') (heap st').
Proof.
  intros Hok. unfold serve, Router_ServeHTTP.
  destruct (decide (Mux.cleanPath (Path r) ≠ Path r)); [by do 3 eexists|].
  destruct (Mux.Router_Match Mux.routes r false) as [t vars| |]; [|by do 3 eexists..].
  rewrite ContentTypeMiddleware_run.
  destruct t; cbn [handler_of].
  - unfold metricsHandler. by do 3 eexists.
  - rewrite ListUserHandler_run. by do 3 eexists.
  - rewrite GetUserHandler_run.
    destruct (Strconv.Atoi _) as [id|err]; [|by do 3 eexists].
    destruct (deref (heap st) (users (repo st)) !! id); by do 3 eexists.
  - rewrite CreateUserHandler_run.
    destruct (Decode_User _ zeroUser) as [u [e|]]; [by do 3 eexists|].
    destruct (Save_ok (repo st) (heap st) u Hok) as (h' & HS & _ & Hok').
    rewrite HS. destruct (Meter_Int64Counter _ _ (sink st)) as [s err].
    by do 3 eexists.
  - unfold DeleteUserHandler.
    destruct (Strconv.Atoi _) as [id|err]; [|by do 3 eexists].
    rewrite mbind_run. unfold repo_Delete. rewrite mret_run. cbn [printed_before].
    do 3 eexists. split; [reflexivity|]. cbn [repo heap]. by apply Delete_ok.
Qed.

Lemma initial_world_ok (s : Sink) : repo_ok (repo (initial_world s)) (heap (initial_world s)).
Proof. apply (NewRepo_ok ∅). Qed.

End Routes.

(** Only POST and DELETE change the repository: a request with any other
    method is answered and leaves the repository and its map exactly as
    they were. *)
Theorem other_methods_change_nothing `{Telemetry} `{Json} (r : Request) (st : World) :
  Method r <> "POST" -> Method r <> "DELETE" ->
  exists out w st',
    serve r st = Done out w st' /\ repo st' = repo st /\ heap st' = heap st.
Proof.
  intros Hpost Hdel. unfold serve, Router_ServeHTTP.
  destruct (decide (Mux.cleanPath (Path r) ≠ Path r)); [by do 3 eexists|].
  destruct (Mux.Router_Match Mux.routes r false) as [t vars| |] eqn:Hm; [|by do 3 eexists..].
  apply Router_Match_found in Hm.
  rewrite ContentTypeMiddleware_run.
  destruct t; cbn [handler_of]; try done.
  - unfold metricsHandler. by do 3 eexists.
  - rewrite ListUserHandler_run. by do 3 eexists.
  - rewrite GetUserHandler_run.
    destruct (Strconv.Atoi _) as [id|err]; [|by do 3 eexists].
    destruct (deref (heap st) (users (repo st)) !! id); by do 3 eexists.
Qed.

Lemma other_methods_change_nothing_witness :
  let st := @mkWorld Fixture.counting (mkRepo 1%positive 2)
              (<[1%positive := {[ 1 := mkUser 1 "Ada" ]}]> ∅) 1 in
  exists out w st',
    @serve Fixture.counting Fixture.json (request "GET" "/users/1" ∅ EmptyString) st
    = Done out w st' /\ repo st' = repo st /\ heap st' = heap st.
Proof.
  intros st.
  apply (@other_methods_change_nothing Fixture.counting Fixture.json
           (request "GET" "/users/1" ∅ EmptyString) st); discriminate.
Defined.

(** GET /users: the answer is 200 with [Content-Type: application/json]
    and the JSON of the whole map as it stands, and nothing changes. *)
Theorem list_users_routed `{Telemetry} `{Json}
    (hdr : gmap string string) (bdy : string) (st : World) :
  exists w,
    serve (request "GET" "/users" hdr bdy) st = Done (accept_warning hdr) w st /\
    status w = Some StatusOK /\
    body w = Marshal_Users (deref (heap st) (users (repo st))) +:+ newline /\
    sent w !! "Content-Type" = Some "application/json".
Proof.
  rewrite serve_users. destruct (decide ("GET" = "GET")); [|done].
  rewrite ListUserHandler_run. cbn [printed_before]. rewrite app_nil_r.
  eexists. split; [reflexivity|].
  rewrite Encoder_Encode_fresh by done. cbn [status body sent].
  split; [done|]. split; [done|]. apply Header_Set_lookup.
Qed.

(** A method that no route of the path lists is refused with 405: the
    body is empty, no header is set, nothing is printed and nothing
    changes, as the middleware and the handlers do not run. *)
Theorem unlisted_method_is_405 `{Telemetry} `{Json}
    (meth s : string) (hdr : gmap string string) (bdy : string) (st : World) :
  (meth <> "GET" -> meth <> "POST" ->
     serve (request meth "/users" hdr bdy) st
     = Done [] (mkResponseWriter ∅ (Some StatusMethodNotAllowed) ∅ EmptyString) st) /\
  (Mux.digits1 s = true -> meth <> "GET" -> meth <> "DELETE" ->
     serve (request meth ("/users/" +:+ s) hdr bdy) st
     = Done [] (mkResponseWriter ∅ (Some StatusMethodNotAllowed) ∅ EmptyString) st).
Proof.
  split.
  - intros Hget Hpost. rewrite serve_users.
    destruct (decide (meth = "GET")); [done|]. by destruct (decide (meth = "POST")).
  - intros Hd Hget Hdel. rewrite (serve_users_id meth s hdr bdy st Hd).
    destruct (decide (meth = "GET")); [done|]. by destruct (decide (meth = "DELETE")).
Qed.

Lemma unlisted_method_is_405_witness :
  let st := @initial_world Fixture.broken tt in
  response_status (@serve Fixture.broken Fixture.json
                     (request "DELETE" "/users" ∅ EmptyString) st) = Some 405 /\
  response_status (@serve Fixture.broken Fixture.json
                     (request "PUT" "/users/1" ∅ EmptyString) st) = Some 405.
Proof.
  intros st.
  destruct (@unlisted_method_is_405 Fixture.broken Fixture.json "DELETE" "1" ∅ EmptyString st)
    as [Hcoll _].
  destruct (@unlisted_method_is_405 Fixture.broken Fixture.json "PUT" "1" ∅ EmptyString st)
    as [_ Hitem].
  split.
  - rewrite Hcoll; [reflexivity | discriminate | discriminate].
  - change "/users/1" with ("/users/" +:+ "1").
    rewrite Hitem; [reflexivity | reflexivity | discriminate | discriminate].
Defined.

(** The id in a request body plays no part: two bodies that decode to
    the same name get the same run of [CreateUserHandler], whatever ids
    they carry. *)
Theorem create_ignores_body_id `{Telemetry} `{Json}
    (w : ResponseWriter) (r1 r2 : Request) (st : World) (u1 u2 : User) :
  Decode_User (Body r1) zeroUser = (u1, None) ->
  Decode_User (Body r2) zeroUser = (u2, None) ->
  Name u1 = Name u2 ->
  CreateUserHandler w r1 st = CreateUserHandler w r2 st.
Proof.
  intros H1 H2 Hn. rewrite !CreateUserHandler_run, H1, H2.
  by rewrite (Save_same_name _ _ u1 u2 Hn).
Qed.

Lemma create_ignores_body_id_witness :
  let st := @initial_world Fixture.broken tt in
  Fixture.decode_user (Fixture.id_name_body 999 "Ada") zeroUser = (mkUser 999 "Ada", None) /\
  Fixture.decode_user (Fixture.name_body "Ada") zeroUser = (mkUser 0 "Ada", None) /\
  @CreateUserHandler Fixture.broken Fixture.json newResponseWriter
    (request "POST" "/users" ∅ (Fixture.id_name_body 999 "Ada")) st
  = @CreateUserHandler Fixture.broken Fixture.json newResponseWriter
      (request "POST" "/users" ∅ (Fixture.name_body "Ada")) st.
Proof.
  intros st. split; [reflexivity|]. split; [reflexivity|].
  apply (@create_ignores_body_id Fixture.broken Fixture.json newResponseWriter
           (request "POST" "/users" ∅ (Fixture.id_name_body 999 "Ada"))
           (request "POST" "/users" ∅ (Fixture.name_body "Ada"))
           st (mkUser 999 "Ada") (mkUser 0 "Ada")); reflexivity.
Defined.

(** The example of the specification: two bodies that both carry the id
    999 are stored under the ids 1 and 2. *)
Example post_id_999_twice :
  @serve_all Fixture.broken Fixture.json
    [ request "POST" "/users" ∅ (Fixture.id_name_body 999 "a");
      request "POST" "/users" ∅ (Fixture.id_name_body 999 "b");
      request "GET" "/users/999" ∅ EmptyString ]
    (@initial_world Fixture.broken tt)
  = [ Some (201, Fixture.marshal_user (mkUser 1 "a") +:+ newline);
      Some (201, Fixture.marshal_user (mkUser 2 "b") +:+ newline);
      Some (404, "User not found" +:+ newline) ].
Proof. reflexivity. Qed.

(** A DELETE of digits beyond the range of [int] is answered 400 with
    the text of the parse error, and deletes nothing. *)
Theorem delete_out_of_range `{Telemetry} `{Json}
    (s : string) (hdr : gmap string string) (bdy : string) (st : World) :
  Mux.digits1 s = true -> GoInt.max_int < Strconv.decimal s ->
  exists w,
    serve (request "DELETE" ("/users/" +:+ s) hdr bdy) st = Done (accept_warning hdr) w st /\
    status w = Some StatusBadRequest /\
    body w = Strconv.NumError_Error (Strconv.mkNumError "Atoi" s Strconv.ErrRange) +:+ newline.
Proof.
  intros Hd Hbig. rewrite (serve_users_id "DELETE" s hdr bdy st Hd).
  destruct (decide ("DELETE" = "GET")); [done|].
  destruct (decide ("DELETE" = "DELETE")); [|done].
  unfold DeleteUserHandler. rewrite Vars_Get_with_vars, (Atoi_digits s Hd).
  destruct (decide (Strconv.decimal s <= GoInt.max_int)); [lia|].
  rewrite mret_run. cbn [printed_before]. rewrite app_nil_r.
  eexists. split; [reflexivity|].
  by destruct (http_Error_fresh (Header_Set "Content-Type" "application/json" newResponseWriter)
             (Strconv.NumError_Error (Strconv.mkNumError "Atoi" s Strconv.ErrRange))
             StatusBadRequest) as (? & ? & ?).
Qed.

Lemma delete_out_of_range_witness :
  let st := @initial_world Fixture.broken tt in
  exists w,
    @serve Fixture.broken Fixture.json
      (request "DELETE" "/users/9223372036854775808" ∅ EmptyString) st
    = Done (accept_warning ∅) w st /\ status w = Some 400.
Proof.
  intros st.
  destruct (@delete_out_of_range Fixture.broken Fixture.json
              "9223372036854775808" ∅ EmptyString st) as (w & Hrun & Hst & _);
    [reflexivity | reflexivity |].
  exists w. split; [exact Hrun | exact Hst].
Defined.

(** What POST /users creates, GET /users/{id} serves: when the body
    decodes, the POST is answered 201 and a GET of the id the repository
    was about to hand out is then answered 200 with the very body of the
    201 response. *)
Theorem created_user_is_served `{Telemetry} `{Json}
    (s : string) (hdr1 hdr2 : gmap string string) (bdy1 bdy2 : string)
    (st : World) (u : User) :
  repo_ok (repo st) (heap st) ->
  Decode_User bdy1 zeroUser = (u, None) ->
  Mux.digits1 s = true ->
  Strconv.decimal s = nextID (repo st) ->
  nextID (repo st) <= GoInt.max_int ->
  exists out1 w1 st1 out2 w2,
    serve (request "POST" "/users" hdr1 bdy1) st = Done out1 w1 st1 /\
    status w1 = Some StatusCreated /\
    serve (request "GET" ("/users/" +:+ s) hdr2 bdy2) st1 = Done out2 w2 st1 /\
    status w2 = Some StatusOK /\
    body w2 = body w1.
Proof.
  intros Hok Hdec Hd Hs Hfit.
  destruct (Save_ok (repo st) (heap st) u Hok) as (h1 & HS & Hmap & _).
  rewrite serve_users.
  destruct (decide ("POST" = "GET")); [done|].
  destruct (decide ("POST" = "POST")); [|done].
  rewrite CreateUserHandler_run.
  change (Body (with_vars (request "POST" "/users" hdr1 bdy1) ∅)) with bdy1.
  rewrite Hdec, HS.
  destruct (Meter_Int64Counter _ _ (sink st)) as [sk err].
  cbn [printed_before].
  rewrite created_response by done.
  do 5 eexists. split; [reflexivity|]. split; [reflexivity|].
  rewrite (serve_users_id "GET" s hdr2 bdy2 _ Hd).
  destruct (decide ("GET" = "GET")); [|done].
  rewrite GetUserHandler_run, Vars_Get_with_vars, (Atoi_digits s Hd), Hs.
  destruct (decide (nextID (repo st) <= GoInt.max_int)); [|lia].
  cbn [heap repo users]. rewrite Hmap, lookup_insert_eq.
  cbn [printed_before]. rewrite Encoder_Encode_fresh by done.
  split; [reflexivity|]. split; reflexivity.
Qed.

Lemma created_user_is_served_witness :
  let st := @initial_world Fixture.counting 0 in
  exists out1 w1 st1 out2 w2,
    @serve Fixture.counting Fixture.json
      (request "POST" "/users" ∅ (Fixture.name_body "Ada")) st = Done out1 w1 st1 /\
    @serve Fixture.counting Fixture.json
      (request "GET" "/users/1" ∅ EmptyString) st1 = Done out2 w2 st1 /\
    body w2 = body w1.
Proof.
  intros st.
  destruct (@created_user_is_served Fixture.counting Fixture.json
              "1" ∅ ∅ (Fixture.name_body "Ada") EmptyString st (mkUser 0 "Ada"))
    as (out1 & w1 & st1 & out2 & w2 & Hpost & _ & Hget & _ & Hbody).
  - apply initial_world_ok.
  - reflexivity.
  - reflexivity.
  - reflexivity.
  - vm_compute. discriminate.
  - exists out1, w1, st1, out2, w2. split; [exact Hpost|]. split; [exact Hget | exact Hbody].
Defined.

(** What DELETE /users/{id} deletes, GET /users/{id} no longer finds:
    after the DELETE is answered 204, a GET of the same path is answered
    404 with the fixed message. *)
Theorem deleted_user_is_gone `{Telemetry} `{Json}
    (s : string) (hdr1 hdr2 : gmap string string) (bdy1 bdy2 : string) (st : World) :
  Mux.digits1 s = true ->
  Strconv.decimal s <= GoInt.max_int ->
  exists out1 w1 st1 out2 w2,
    serve (request "DELETE" ("/users/" +:+ s) hdr1 bdy1) st = Done out1 w1 st1 /\
    status w1 = Some StatusNoContent /\
    serve (request "GET" ("/users/" +:+ s) hdr2 bdy2) st1 = Done out2 w2 st1 /\
    status w2 = Some StatusNotFound /\
    body w2 = "User not found" +:+ newline.
Proof.
  intros Hd Hfit.
  destruct (delete_user_routed s hdr1 bdy1 st Hd Hfit) as (w1 & Hdel & Hst1 & _).
  rewrite Hdel. do 5 eexists. split; [reflexivity|]. split; [exact Hst1|].
  rewrite (serve_users_id "GET" s hdr2 bdy2 _ Hd).
  destruct (decide ("GET" = "GET")); [|done].
  rewrite GetUserHandler_run, Vars_Get_with_vars, (Atoi_digits s Hd).
  destruct (decide (Strconv.decimal s <= GoInt.max_int)); [|lia].
  cbn [heap repo]. rewrite deref_Delete, lookup_delete_eq.
  cbn [printed_before].
  split; [reflexivity|].
  destruct (http_Error_fresh (Header_Set "Content-Type" "application/json" newResponseWriter)
              "User not found" StatusNotFound) as (Hst & Hbody & _); [done..|].
  split; [exact Hst | exact Hbody].
Qed.

Lemma deleted_user_is_gone_witness :
  let st := @mkWorld Fixture.counting (mkRepo 1%positive 2)
              (<[1%positive := {[ 1 := mkUser 1 "Ada" ]}]> ∅) 1 in
  exists out1 w1 st1 out2 w2,
    @serve Fixture.counting Fixture.json
      (request "DELETE" "/users/1" ∅ EmptyString) st = Done out1 w1 st1 /\
    @serve Fixture.counting Fixture.json
      (request "GET" "/users/1" ∅ EmptyString) st1 = Done out2 w2 st1 /\
    status w2 = Some 404.
Proof.
  intros st.
  destruct (@deleted_user_is_gone Fixture.counting Fixture.json
              "1" ∅ ∅ EmptyString EmptyString st)
    as (out1 & w1 & st1 & out2 & w2 & Hdel & _ & Hget & Hst & _).
  - reflexivity.
  - vm_compute. discriminate.
  - exists out1, w1, st1, out2, w2. split; [exact Hdel|]. split; [exact Hget | exact Hst].
Defined.

(** The [Content-Type] that reaches the client of GET /users/{id}: the
    middleware's [application/json] on a 200, and [text/plain] on a 400
    or a 404, where [http.Error] replaces what the middleware had set. *)
Theorem get_content_type `{Telemetry} `{Json}
    (s : string) (hdr : gmap string string) (bdy : string) (st : World) :
  Mux.digits1 s = true ->
  exists w,
    serve (request "GET" ("/users/" +:+ s) hdr bdy) st = Done (accept_warning hdr) w st /\
    ((status w = Some StatusOK /\
      sent w !! "Content-Type" = Some "application/json") \/
     ((status w = Some StatusBadRequest \/ status w = Some StatusNotFound) /\
      sent w !! "Content-Type" = Some "text/plain; charset=utf-8")).
Proof.
  intros Hd. rewrite (serve_users_id "GET" s hdr bdy st Hd).
  destruct (decide ("GET" = "GET")); [|done].
  rewrite GetUserHandler_run, Vars_Get_with_vars.
  destruct (Strconv.Atoi s) as [id|err].
  - destruct (deref (heap st) (users (repo st)) !! id) as [u|].
    + cbn [printed_before]. rewrite app_nil_r. eexists. split; [reflexivity|].
      left. rewrite Encoder_Encode_fresh by done. cbn [status sent].
      split; [done|]. apply Header_Set_lookup.
    + cbn [printed_before]. rewrite app_nil_r. eexists. split; [reflexivity|].
      right.
      destruct (http_Error_fresh (Header_Set "Content-Type" "application/json" newResponseWriter)
                  "User not found" StatusNotFound) as (Hst & _ & Hct); [done..|].
      split; [by right | exact Hct].
  - cbn [printed_before]. rewrite app_nil_r. eexists. split; [reflexivity|].
    right.
    destruct (http_Error_fresh (Header_Set "Content-Type" "application/json" newResponseWriter)
                (Strconv.NumError_Error err) StatusBadRequest) as (Hst & _ & Hct); [done..|].
    split; [by left | exact Hct].
Qed.

Lemma get_content_type_witness :
  let st := @initial_world Fixture.broken tt in
  exists w,
    @serve Fixture.broken Fixture.json (request "GET" "/users/5" ∅ EmptyString) st
    = Done (accept_warning ∅) w st /\
    sent w !! "Content-Type" = Some "text/plain; charset=utf-8".
Proof.
  intros st.
  destruct (@get_content_type Fixture.broken Fixture.json "5" ∅ EmptyString st)
    as (w & Hrun & Hct); [reflexivity|].
  exists w. split; [exact Hrun|].
  destruct Hct as [[Hst _]|[_ Hct]]; [|exact Hct].
  exfalso. change "/users/5" with ("/users/" +:+ "5") in Hrun.
  vm_compute in Hrun. injection Hrun as <-. vm_compute in Hst. discriminate.
Defined.

Lemma strip_prefix_Some (p s rest : string) :
  Mux.strip_prefix p s = Some rest -> s = p +:+ rest.
Proof.
  revert s. induction p as [|a p IH]; intros s; simpl.
  - by intros [= ->].
  - destruct s as [|b s]; [done|].
    destruct (decide (a = b)) as [->|]; [|done].
    intros Hs. by rewrite (IH s Hs).
Qed.

(** A path outside the route table ([/metrics], [/users] and
    [/users/<digits>]) reaches no handler, whatever the method: the
    router answers 404, or 301 when the path is not in canonical form,
    and nothing changes. *)
Theorem unrouted_path_is_not_found `{Telemetry} `{Json} (r : Request) (st : World) :
  Path r <> "/metrics" ->
  Path r <> "/users" ->
  (forall s, Path r = "/users/" +:+ s -> Mux.digits1 s = false) ->
  exists w,
    serve r st = Done [] w st /\
    ((Mux.cleanPath (Path r) = Path r /\
      status w = Some StatusNotFound /\ body w = "404 page not found" +:+ newline) \/
     (Mux.cleanPath (Path r) <> Path r /\
      status w = Some StatusMovedPermanently /\ body w = EmptyString)).
Proof.
  intros Hmetrics Husers Hid. unfold serve, Router_ServeHTTP.
  destruct (decide (Mux.cleanPath (Path r) ≠ Path r)) as [Hne|Heq].
  { eexists. split; [reflexivity|]. right. by repeat split. }
  assert (Hclean : Mux.cleanPath (Path r) = Path r).
  { by destruct (decide (Mux.cleanPath (Path r) = Path r)). }
  assert (Hnone : Mux.Router_Match Mux.routes r false = Mux.ErrNotFound).
  { unfold Mux.routes, Mux.Router_Match, Mux.Route_Match.
    cbn [Mux.template Mux.methods Mux.target Mux.match_template].
    destruct (decide (Path r = "/metrics")); [done|].
    destruct (decide (Path r = "/users")); [done|].
    destruct (Mux.strip_prefix "/users/" (Path r)) as [s|] eqn:Hs; [|done].
    apply strip_prefix_Some in Hs. by rewrite (Hid s Hs). }
  rewrite Hnone. eexists. split; [reflexivity|]. left.
  split; [exact Hclean|].
  by destruct (http_Error_fresh newResponseWriter "404 page not found" StatusNotFound)
    as (? & ? & ?).
Qed.

Lemma unrouted_path_is_not_found_witness :
  let st := @initial_world Fixture.broken tt in
  exists w,
    @serve Fixture.broken Fixture.json (request "GET" "/health" ∅ EmptyString) st
    = Done [] w st /\
    status w = Some 404.
Proof.
  intros st.
  destruct (@unrouted_path_is_not_found Fixture.broken Fixture.json
              (request "GET" "/health" ∅ EmptyString) st) as (w & Hrun & Hcase).
  - discriminate.
  - discriminate.
  - intros s Hs. exfalso. cbn [Path request] in Hs. simpl in Hs. discriminate.
  - exists w. split; [exact Hrun|].
    destruct Hcase as [(_ & Hst & _)|(Hne & _)]; [exact Hst|].
    exfalso. apply Hne. reflexivity.
Defined.

(** The keys of a map in its JSON text come in the order of their
    decimal text, 10 before 2. *)
Example marshal_users_key_order :
  Fixture.marshal_users {[ 2 := mkUser 2 "b"; 10 := mkUser 10 "a" ]}
  = "{" +:+ Fixture.q "10" +:+ ":" +:+ Fixture.marshal_user (mkUser 10 "a") +:+ ","
        +:+ Fixture.q "2" +:+ ":" +:+ Fixture.marshal_user (mkUser 2 "b") +:+ "}".
Proof. vm_compute. reflexivity. Qed.

Lemma serve_ignores_accept_witness :
  let st := @initial_world Fixture.broken tt in
  response_of (@serve Fixture.broken Fixture.json
                 (with_header (request "GET" "/users" ∅ EmptyString) "Accept" "text/html") st)
  = response_of (@serve Fixture.broken Fixture.json
                   (request "GET" "/users" ∅ EmptyString) st).
Proof.
  intros st.
  apply (@serve_ignores_accept Fixture.broken Fixture.json
           (request "GET" "/users" ∅ EmptyString) "text/html" st).
  intros vars. vm_compute. discriminate.
Defined.

(** * Further properties of the shut-down sequence *)

Lemma shutdown_never_waits_witness :
  exists p,
    Lifecycle.run (Lifecycle.start "9090")
      [Lifecycle.BindOk; Lifecycle.Accept; Lifecycle.Accept; Lifecycle.Interrupt] = Some p /\
    Lifecycle.active (Lifecycle.serving p) = 2%nat /\
    Lifecycle.step p Lifecycle.ShutdownReturns
      = Some (Lifecycle.mkProcess (Lifecycle.configured p) (Lifecycle.serving p)
                Lifecycle.Returned (Lifecycle.delivered p)).
Proof.
  eexists. split; [reflexivity|]. split; [reflexivity|].
  apply (LifecycleFacts.shutdown_never_waits "9090"); [|reflexivity].
  exists [Lifecycle.BindOk; Lifecycle.Accept; Lifecycle.Accept; Lifecycle.Interrupt].
  reflexivity.
Defined.

Lemma timeouts_never_apply_witness :
  exists p,
    Lifecycle.run (Lifecycle.start "9090") [Lifecycle.BindOk; Lifecycle.Accept] = Some p /\
    Lifecycle.ReadTimeout (Lifecycle.config (Lifecycle.serving p)) = 0 /\
    Lifecycle.WriteTimeout (Lifecycle.config (Lifecycle.serving p)) = 0.
Proof.
  eexists. split; [reflexivity|].
  match goal with
  | |- Lifecycle.ReadTimeout (Lifecycle.config (Lifecycle.serving ?p)) = 0 /\ _ =>
      destruct (timeouts_never_apply "9090" p) as (Hr & Hw & _)
  end.
  - exists [Lifecycle.BindOk; Lifecycle.Accept]. reflexivity.
  - split; [exact Hr | exact Hw].
Defined.
